(** * chrome-ic-inspector: the decode-and-correlate pipeline of
      [src/services/capture.ts]

    A shallow embedding of [decodeRequest], [decodeResponse] and
    [captureInternetComputerMessageFromNetworkEvent], with the module-level
    object [messageDetails] as an explicit store and every [await] as a
    suspension point of a small resumption monad. *)

From Stdlib Require Import ZArith NArith Strings.Byte Strings.String Strings.Ascii.
From stdpp Require Import gmap strings list fin_maps pretty.

#[local] Open Scope string_scope.
#[local] Set Warnings "-register-all".

(** ** Bytes and hexadecimal text *)

Abbreviation bytes := (list byte).

(** [new TextEncoder().encode(s)] for the ASCII literals of the source. *)
Definition TextEncoder_encode (s : string) : bytes := list_byte_of_string s.
Arguments TextEncoder_encode : simpl never.

Definition hex_digit (n : N) : ascii :=
  match n with
  | 0 => "0" | 1 => "1" | 2 => "2" | 3 => "3" | 4 => "4" | 5 => "5"
  | 6 => "6" | 7 => "7" | 8 => "8" | 9 => "9" | 10 => "a" | 11 => "b"
  | 12 => "c" | 13 => "d" | 14 => "e" | _ => "f"
  end%N%char.

(** [toHexString] of the package [ictool]: two lower-case hexadecimal digits
    for each byte. *)
Definition toHexString (bs : bytes) : string :=
  foldr (λ b acc,
           String (hex_digit (Byte.to_N b / 16))
                  (String (hex_digit (Byte.to_N b mod 16)) acc))
        EmptyString bs.

(** ** Errors

    One constructor for each [throw] of [capture.ts] and for each place where
    the JavaScript runtime raises a [TypeError]; the comments give the name
    the design document uses for the failure. *)

Inductive Site : Type :=
| In_content          (* ['content' in result], result a primitive *)
| In_request_type     (* ['request_type' in request], request a primitive *)
| In_response         (* ['status' in response] and the like *)
| Index_paths         (* [paths[0][i]] with [paths] or [paths[0]] nullish *)
| Destructure_details (* [const { method, canisterId } = undefined] *)
| Get_reply_arg       (* [response.reply.arg] with [reply] nullish *)
| Flat_paths          (* [paths.flat()] on a value that is no array *)
| Decode_label        (* [TextDecoder.decode] of a value that is no buffer *).

Inductive Error : Type :=
| NoPostData                      (* MissingBody *)
| MissingContentKey               (* UnexpectedShape *)
| UnexpectedRequest               (* UnknownRequestKind *)
| UnexpectedResponse              (* response fails the shape validation *)
| QueryResponseMismatch           (* ResponseRequestMismatch, line 244 *)
| ReadStateResponseMismatch       (* ResponseRequestMismatch, line 269 *)
| UnexpectedFirstPath (p1 : string) (* UnexpectedPathPrefix *)
| NoMessageDetails (message : string) (* line 285 *)
| MissingReply                    (* MissingReplyOnSuccess *)
| DoneWithoutReply                (* DoneWithoutReply *)
| TODO_CallResponses              (* UnrecognizedResponseShape *)
| TypeError (site : Site)
| Collaborator (what : string)    (* thrown or rejected by a collaborator *).

Inductive result (A : Type) : Type :=
| Ok (a : A)
| Err (e : Error).
Arguments Ok {A} a.
Arguments Err {A} e.

#[export] Instance result_ret : MRet result := λ A a, Ok a.
#[export] Instance result_bind : MBind result :=
  λ A B f r, match r with Ok a => f a | Err e => Err e end.

(** ** JavaScript values, as [cbor-x] produces them *)

Inductive Value : Type :=
| VUndefined
| VNull
| VBool (b : bool)
| VNum (n : Z)
| VStr (s : string)
| VBytes (b : bytes)                       (* Uint8Array / ArrayBuffer *)
| VArr (xs : list Value)
| VObj (fields : list (string * Value)).

Fixpoint assoc (k : string) (fields : list (string * Value)) : option Value :=
  match fields with
  | [] => None
  | (k', v) :: rest => if String.eqb k k' then Some v else assoc k rest
  end.

(** [!v] is [negb (truthy v)]. *)
Definition truthy (v : Value) : bool :=
  match v with
  | VUndefined | VNull => false
  | VBool b => b
  | VNum n => negb (n =? 0)%Z
  | VStr s => negb (String.eqb s "")
  | VBytes _ | VArr _ | VObj _ => true
  end.

(** [k in v], for the property names the source tests ([content],
    [request_type], [status], [certificate], [requestId]): none of them is an
    index, [length] or a property of [Object.prototype]. *)
Definition js_in (site : Site) (k : string) (v : Value) : result bool :=
  match v with
  | VObj fields => Ok (bool_decide (is_Some (assoc k fields)))
  | VArr _ | VBytes _ => Ok false
  | VUndefined | VNull | VBool _ | VNum _ | VStr _ => Err (TypeError site)
  end.

(** [v.k], for the property names the source reads. *)
Definition js_get (site : Site) (v : Value) (k : string) : result Value :=
  match v with
  | VUndefined | VNull => Err (TypeError site)
  | VObj fields => Ok (default VUndefined (assoc k fields))
  | VBool _ | VNum _ | VStr _ | VBytes _ | VArr _ => Ok VUndefined
  end.

(** [v[i]] for an index [i]. *)
Definition js_index (site : Site) (v : Value) (i : nat) : result Value :=
  match v with
  | VUndefined | VNull => Err (TypeError site)
  | VArr xs => Ok (default VUndefined (xs !! i))
  | VBytes b => Ok (from_option (λ x, VNum (Z.of_N (Byte.to_N x))) VUndefined (b !! i))
  | VStr s =>
      Ok (match String.get i s with
          | Some c => VStr (String c EmptyString)
          | None => VUndefined
          end)
  | VObj fields => Ok (default VUndefined (assoc (pretty i) fields))
  | VBool _ | VNum _ => Ok VUndefined
  end.

(** The property [k] of a value on which [k in v] did not throw. *)
Definition field (v : Value) (k : string) : Value :=
  match v with
  | VObj fields => default VUndefined (assoc k fields)
  | _ => VUndefined
  end.

(** [v === s] for a string literal [s] *)
Definition strict_eq (v : Value) (s : string) : bool :=
  match v with
  | VStr s' => String.eqb s' s
  | _ => false
  end.

(** [paths.flat()]: one level of nesting is removed. *)
Definition js_flat (v : Value) : result (list Value) :=
  match v with
  | VArr xs =>
      Ok (concat (map (λ x, match x with VArr ys => ys | _ => [x] end) xs))
  | _ => Err (TypeError Flat_paths)
  end.

(** [['query', 'call', 'read_state'].includes(v)] *)
Inductive RequestType : Type := query | call | read_state.

#[export] Instance RequestType_eq_dec : EqDecision RequestType.
Proof. solve_decision. Defined.

Definition RequestType_of (v : Value) : option RequestType :=
  match v with
  | VStr s =>
      if String.eqb s "query" then Some query
      else if String.eqb s "call" then Some call
      else if String.eqb s "read_state" then Some read_state
      else None
  | _ => None
  end.

(** ** Collaborators

    What [capture.ts] imports: the browser ([btoa], [URL], [TextDecoder], the
    typed-array constructor), [cbor-x], [@dfinity/agent] and the sibling
    modules [./common] and [./candid]. *)

Definition Principal : Type := bytes.
Definition URL : Type := string.
(** A [Certificate] object holds the decoded certificate. *)
Definition Certificate : Type := Value.

Class External : Type := {
  (** [window.btoa] *)
  btoa : string → result string;
  (** [base64ToBytes] of [./common] *)
  base64ToBytes : string → result bytes;
  (** [decode] of [cbor-x] *)
  cborDecode : bytes → result Value;
  (** [asPrincipal] of [./common] and [Principal.toText] *)
  asPrincipal : Value → result Principal;
  toText : Principal → string;
  (** [requestIdOf] of [@dfinity/agent] *)
  requestIdOf : Value → result bytes;
  (** [new URL(url)] *)
  URL_new : string → result URL;
  (** [new Uint8Array(v)] when [v] is neither a buffer nor nullish *)
  typedArrayFrom : Value → result bytes;
  (** [new TextDecoder().decode(buffer)] *)
  TextDecoder_decode : bytes → string;
  (** [new Certificate(response, new HttpAgent())] and, with [verified] set,
      [cert.lookup(path)]: the leaf bytes or [undefined] *)
  Certificate_new : Value → result Certificate;
  Certificate_lookup : Certificate → list Value → result (option bytes);
  (** [url.match(boundaryNodeRegex)] *)
  boundaryNodeRegex_match : string → bool
}.

(** ** The store [messageDetails] and the capture event *)

Record Details : Type := {
  details_canisterId : string;
  details_method : Value
}.

(** [messageDetails] is an object used as a map. Its keys are results of
    [toHexString], which never spell a property of [Object.prototype], so the
    own properties are all a lookup can find. *)
Abbreviation Store := (gmap string Details).

Record NetworkEvent : Type := {
  request_url : string;
  request_method : string;
  (** [event.request.postData?.text] *)
  request_postData_text : option string
}.

Record CandidDecodeResult : Type := {
  cdr_result : Value;
  withInterface : bool
}.

(** ** Asynchronous functions

    The body of an [async] function runs synchronously up to its next
    [await]; there it is suspended, and resumed later with the settled value
    of the awaited promise. *)

Inductive Pending : Type :=
| GetContent (event : NetworkEvent)
| DecodeCandidArgs (canisterId : string) (method : Value) (arg : Value)
| DecodeCandidVals (canisterId : string) (method : Value) (buf : Value).

Definition answer (p : Pending) : Type :=
  match p with
  | GetContent _ => option string
  | DecodeCandidArgs _ _ _ | DecodeCandidVals _ _ _ => CandidDecodeResult
  end.

Inductive Async (A : Type) : Type :=
| Return (a : A)
| Throw (e : Error)
| ReadDetails (key : string) (k : option Details → Async A)
| WriteDetails (key : string) (d : Details) (k : Async A)
| Await (p : Pending) (k : result (answer p) → Async A).
Arguments Return {A} a.
Arguments Throw {A} e.
Arguments ReadDetails {A} key k.
Arguments WriteDetails {A} key d k.
Arguments Await {A} p k.

Fixpoint Async_bind {A B : Type} (f : A → Async B) (t : Async A) : Async B :=
  match t with
  | Return a => f a
  | Throw e => Throw e
  | ReadDetails key k => ReadDetails key (λ d, Async_bind f (k d))
  | WriteDetails key d k => WriteDetails key d (Async_bind f k)
  | Await p k => Await p (λ r, Async_bind f (k r))
  end.

#[export] Instance Async_ret : MRet Async := λ A a, Return a.
#[export] Instance Async_mbind : MBind Async := λ A B f t, Async_bind f t.

(** A synchronous step that may throw. *)
Definition lift {A : Type} (r : result A) : Async A :=
  match r with Ok a => Return a | Err e => Throw e end.

(** [await p]: the value the promise is fulfilled with, or its rejection
    thrown. *)
Definition await (p : Pending) : Async (answer p) := Await p lift.

(** [messageDetails[key] = d] and [messageDetails[key]] *)
Definition messageDetails_put (key : string) (d : Details) : Async unit :=
  WriteDetails key d (Return tt).
Definition messageDetails_get (key : string) : Async (option Details) :=
  ReadDetails key Return.

(** How a task stands at its first suspension. *)
Inductive Progress (A : Type) : Type :=
| Settled (r : result A)
| Suspended (p : Pending) (k : result (answer p) → Async A).
Arguments Settled {A} r.
Arguments Suspended {A} p k.

(** The synchronous run of a task, up to its first [await]. *)
Fixpoint run_sync {A : Type} (t : Async A) (σ : Store) : Store * Progress A :=
  match t with
  | Return a => (σ, Settled (Ok a))
  | Throw e => (σ, Settled (Err e))
  | ReadDetails key k => run_sync (k (σ !! key)) σ
  | WriteDetails key d k => run_sync k (<[key:=d]> σ)
  | Await p k => (σ, Suspended p k)
  end.

(** The environment settles every awaited promise. *)
Definition Oracle : Type := ∀ p : Pending, result (answer p).

(** The run of one task to its end, no other task touching the store. *)
Fixpoint exec {A : Type} (t : Async A) (env : Oracle) (σ : Store)
  : Store * result A :=
  match t with
  | Return a => (σ, Ok a)
  | Throw e => (σ, Err e)
  | ReadDetails key k => exec (k (σ !! key)) env σ
  | WriteDetails key d k => exec k env (<[key:=d]> σ)
  | Await p k => exec (k (env p)) env σ
  end.

(** ** Decoded requests and responses *)

Inductive RequestBody : Type :=
| Args (args : CandidDecodeResult)   (* query and call: [args] *)
| Paths (paths : Value)              (* read_state: [paths] *).

Record DecodedRequest : Type := {
  boundary : URL;
  message : string;
  requestId : string;
  canisterId : string;
  method : Value;
  sender : Principal;
  requestType : RequestType;
  ingressExpiry : Value;
  body : RequestBody
}.

(** [request.paths] of [request as DecodedCallRequest] *)
Definition paths_of (request : DecodedRequest) : Value :=
  match body request with
  | Paths paths => paths
  | Args _ => VUndefined
  end.

(** The members of the enumeration [RequestStatusResponseStatus]. *)
Module RequestStatusResponseStatus.
Definition Received : string := "received".
Definition Processing : string := "processing".
Definition Replied : string := "replied".
Definition Rejected : string := "rejected".
Definition Unknown : string := "unknown".
Definition Done : string := "done".
End RequestStatusResponseStatus.

Inductive DecodedResponse : Type :=
| StatusOnly (status : Value)                                 (* [{ status }] *)
| WithReply (status : Value) (reply : CandidDecodeResult)    (* [{ status, reply }] *)
| Rejection (status : Value) (message : Value) (code : Value) (* [{ status, message, code }] *)
| NoResponse               (* [undefined]: the [switch] ends without [return] *).

(** What lines 87-125 of [decodeRequest] compute for every kind of request. *)
Record RequestCommon : Type := {
  rc_request : Value;
  rc_sender : Principal;
  rc_requestType : RequestType;
  rc_ingressExpiry : Value;
  rc_requestId : string;
  rc_boundary : URL
}.

Section Capture.
Context `{External}.

Definition isBoundaryNodeURL (url : string) : bool :=
  boundaryNodeRegex_match url.

Definition shouldCapture (event : NetworkEvent) : bool :=
  isBoundaryNodeURL (request_url event)
  && String.eqb (request_method event) "POST".

(** [new Uint8Array(v)] *)
Definition Uint8Array_new (v : Value) : result bytes :=
  match v with
  | VBytes b => Ok b
  | VUndefined | VNull => Ok []
  | _ => typedArrayFrom v
  end.

(** [new TextDecoder().decode(v)] *)
Definition TextDecoder_decode_value (v : Value) : result string :=
  match v with
  | VBytes b => Ok (TextDecoder_decode b)
  | VUndefined => Ok ""
  | _ => Err (TypeError Decode_label)
  end.

(** [decodeRequest], lines 87-125 *)
Definition requestCommon (event : NetworkEvent) : result RequestCommon :=
  match request_postData_text event with
  | None => Err NoPostData
  | Some requestText =>
      if String.eqb requestText "" then Err NoPostData else
      b64 ← btoa requestText;
      bs ← base64ToBytes b64;
      result ← cborDecode bs;
      has_content ← js_in In_content "content" result;
      if negb has_content then Err MissingContentKey else
      request ← js_get In_content result "content";
      has_type ← js_in In_request_type "request_type" request;
      if negb has_type then Err UnexpectedRequest else
      request_type ← js_get In_request_type request "request_type";
      match RequestType_of request_type with
      | None => Err UnexpectedRequest
      | Some requestType =>
          sender_field ← js_get In_request_type request "sender";
          sender ← asPrincipal sender_field;
          ingressExpiry ← js_get In_request_type request "ingress_expiry";
          id ← requestIdOf request;
          boundary ← URL_new (request_url event);
          Ok {| rc_request := request;
                rc_sender := sender;
                rc_requestType := requestType;
                rc_ingressExpiry := ingressExpiry;
                rc_requestId := toHexString id;
                rc_boundary := boundary |}
      end
  end.

(** [decodeRequest], lines 128-151: the branch of [query] and [call] *)
Definition decodeCallOrQuery (c : RequestCommon) : Async DecodedRequest :=
  canister_id ← lift (js_get In_request_type (rc_request c) "canister_id");
  principal ← lift (asPrincipal canister_id);
  let canisterId := toText principal in
  method ← lift (js_get In_request_type (rc_request c) "method_name");
  let message := rc_requestId c in
  messageDetails_put message
    {| details_canisterId := canisterId; details_method := method |};;
  arg ← lift (js_get In_request_type (rc_request c) "arg");
  args ← await (DecodeCandidArgs canisterId method arg);
  Return {| boundary := rc_boundary c;
            message := message;
            requestId := rc_requestId c;
            sender := rc_sender c;
            requestType := rc_requestType c;
            ingressExpiry := rc_ingressExpiry c;
            canisterId := canisterId;
            method := method;
            body := Args args |}.

(** [decodeRequest], lines 153-170: the branch of [read_state] *)
Definition decodeReadState (c : RequestCommon) : Async DecodedRequest :=
  paths ← lift (js_get In_request_type (rc_request c) "paths");
  path0 ← lift (js_index Index_paths paths 0);
  label1 ← lift (js_index Index_paths path0 1);
  id ← lift (Uint8Array_new label1);
  let message := toHexString id in
  details ← messageDetails_get message;
  match details with
  | None => Throw (TypeError Destructure_details)
  | Some d =>
      Return {| boundary := rc_boundary c;
                message := message;
                requestId := rc_requestId c;
                canisterId := details_canisterId d;
                method := details_method d;
                sender := rc_sender c;
                requestType := rc_requestType c;
                ingressExpiry := rc_ingressExpiry c;
                body := Paths paths |}
  end.

Definition decodeRequest (event : NetworkEvent) : Async DecodedRequest :=
  c ← lift (requestCommon event);
  match rc_requestType c with
  | query | call => decodeCallOrQuery c
  | read_state => decodeReadState c
  end.

(** [decodeResponse], lines 296-307: the status the certificate holds *)
Definition resolveStatus (cert : Certificate) (paths : Value) : result string :=
  flat ← js_flat paths;
  found ← Certificate_lookup cert (flat ++ [VBytes (TextEncoder_encode "status")]);
  match found with
  | Some buffer => Ok (TextDecoder_decode buffer)
  | None => Ok RequestStatusResponseStatus.Unknown
  end.

(** [cert.lookup([...paths.flat(), label])] *)
Definition lookupField (cert : Certificate) (paths : Value) (label : string)
  : result (option bytes) :=
  flat ← js_flat paths;
  Certificate_lookup cert (flat ++ [VStr label]).

(** [new Uint8Array(buffer!)[0]] *)
Definition first_byte (buffer : option bytes) : Value :=
  match default [] buffer with
  | b :: _ => VNum (Z.of_N (Byte.to_N b))
  | [] => VUndefined
  end.

(** [new TextDecoder().decode(buffer!)] *)
Definition decode_text (buffer : option bytes) : string :=
  match buffer with
  | Some b => TextDecoder_decode b
  | None => ""
  end.

(** [decodeResponse], lines 309-344: the [switch] on the status *)
Definition statusSwitch (cert : Certificate) (paths : Value)
    (canisterId : string) (method : Value) (status : string)
  : Async DecodedResponse :=
  if String.eqb status RequestStatusResponseStatus.Replied then
    buffer ← lift (lookupField cert paths "reply");
    match buffer with
    | None => Throw MissingReply
    | Some b =>
        reply ← await (DecodeCandidVals canisterId method (VBytes b));
        Return (WithReply (VStr status) reply)
    end
  else if String.eqb status RequestStatusResponseStatus.Received
       || String.eqb status RequestStatusResponseStatus.Unknown
       || String.eqb status RequestStatusResponseStatus.Processing then
    Return (StatusOnly (VStr status))
  else if String.eqb status RequestStatusResponseStatus.Rejected then
    reject_code ← lift (lookupField cert paths "reject_code");
    let code := first_byte reject_code in
    reject_message ← lift (lookupField cert paths "reject_message");
    let message := decode_text reject_message in
    Return (Rejection (VStr status) (VStr message) code)
  else if String.eqb status RequestStatusResponseStatus.Done then
    Throw DoneWithoutReply
  else Return NoResponse.

(** [decodeResponse], lines 241-265: a response with a [status] key *)
Definition decodeQueryResponse (response : Value) (request : DecodedRequest)
  : Async DecodedResponse :=
  match requestType request with
  | query =>
      status ← lift (js_get In_response response "status");
      if strict_eq status "replied" then
        reply_field ← lift (js_get In_response response "reply");
        arg ← lift (js_get Get_reply_arg reply_field "arg");
        reply ← await (DecodeCandidVals (canisterId request) (method request) arg);
        Return (WithReply status reply)
      else
        message ← lift (js_get In_response response "reject_message");
        code ← lift (js_get In_response response "reject_code");
        Return (Rejection status message code)
  | _ => Throw QueryResponseMismatch
  end.

(** [decodeResponse], lines 266-344: a response with a [certificate] key *)
Definition decodeReadStateResponse (response : Value) (request : DecodedRequest)
  : Async DecodedResponse :=
  match requestType request with
  | read_state =>
      let paths := paths_of request in
      path0 ← lift (js_index Index_paths paths 0);
      label0 ← lift (js_index Index_paths path0 0);
      p1 ← lift (TextDecoder_decode_value label0);
      if negb (String.eqb p1 "request_status") then Throw (UnexpectedFirstPath p1) else
      details ← messageDetails_get (message request);
      match details with
      | None => Throw (NoMessageDetails (message request))
      | Some d =>
          cert ← lift (Certificate_new response);
          status ← lift (resolveStatus cert paths);
          statusSwitch cert paths (details_canisterId d) (details_method d) status
      end
  | _ => Throw ReadStateResponseMismatch
  end.

(** [decodeResponse], lines 229-239: the validation of the decoded value *)
Definition validResponse (response : Value) : result bool :=
  if negb (truthy response) then Ok false else
  has_status ← js_in In_response "status" response;
  if (has_status : bool) then Ok true else
  has_certificate ← js_in In_response "certificate" response;
  if (has_certificate : bool) then Ok true else
  has_requestId ← js_in In_response "requestId" response;
  Ok has_requestId.

(** [decodeResponse], lines 222-347: a body that is not empty *)
Definition decodeContent (content : string) (request : DecodedRequest)
  : Async DecodedResponse :=
  bs ← lift (base64ToBytes content);
  response ← lift (cborDecode bs);
  valid ← lift (validResponse response);
  if negb valid then Throw UnexpectedResponse else
  has_status ← lift (js_in In_response "status" response);
  if (has_status : bool) then decodeQueryResponse response request else
  has_certificate ← lift (js_in In_response "certificate" response);
  if (has_certificate : bool) then decodeReadStateResponse response request
  else Throw TODO_CallResponses.

(** [decodeResponse]: [!content] holds of [undefined] and of the empty
    string. *)
Definition decodeResponse (event : NetworkEvent) (request : DecodedRequest)
  : Async DecodedResponse :=
  content ← await (GetContent event);
  match content with
  | None => Return (StatusOnly (VStr RequestStatusResponseStatus.Unknown))
  | Some text =>
      if String.eqb text "" then
        Return (StatusOnly (VStr RequestStatusResponseStatus.Unknown))
      else decodeContent text request
  end.

Definition captureInternetComputerMessageFromNetworkEvent (event : NetworkEvent)
  : Async (option (DecodedRequest * DecodedResponse)) :=
  if negb (shouldCapture event) then Return None else
  request ← decodeRequest event;
  response ← decodeResponse event request;
  Return (Some (request, response)).

End Capture.

(** ** A reference instance of the collaborators

    Enough of the outside world to run the decoders on concrete captures: the
    transport text is taken as the bytes themselves, the envelopes of a few
    captures are tabulated, and a certificate is a tree of labelled nodes
    with byte leaves. *)

Module Fixture.

Definition text_of (v : Value) : option string :=
  match v with
  | VBytes b => Some (string_of_list_byte b)
  | VStr s => Some s
  | _ => None
  end.

(** The walk of a labelled tree along a path, as the design document
    describes the resolver: labels are compared as byte strings, the result
    is the leaf bytes at the end of the path, or nothing when a label is
    missing or the node reached is no leaf. *)
Fixpoint lookup_path (path : list Value) (tree : Value) : option bytes :=
  match path with
  | [] => match tree with VBytes leaf => Some leaf | _ => None end
  | label :: rest =>
      match tree, text_of label with
      | VObj children, Some l =>
          match assoc l children with
          | Some sub => lookup_path rest sub
          | None => None
          end
      | _, _ => None
      end
  end.

Definition id_greet : bytes := TextEncoder_encode "greet".

Definition call_greet : Value :=
  VObj [("content",
         VObj [("request_type", VStr "call");
               ("sender", VBytes [x04]);
               ("ingress_expiry", VNum 1700000000);
               ("canister_id", VBytes []);
               ("method_name", VStr "greet");
               ("arg", VBytes (TextEncoder_encode "DIDL"))])].

Definition query_greet : Value :=
  VObj [("content",
         VObj [("request_type", VStr "query");
               ("sender", VBytes [x04]);
               ("ingress_expiry", VNum 1700000000);
               ("canister_id", VBytes []);
               ("method_name", VStr "greet");
               ("arg", VBytes (TextEncoder_encode "DIDL"))])].

Definition poll_greet : Value :=
  VObj [("content",
         VObj [("request_type", VStr "read_state");
               ("sender", VBytes [x04]);
               ("ingress_expiry", VNum 1700000000);
               ("paths",
                VArr [VArr [VBytes (TextEncoder_encode "request_status");
                            VBytes id_greet]])])].

Definition certificate_of (entries : list (string * Value)) : Value :=
  VObj [("tree", VObj [("request_status", VObj [("greet", VObj entries)])])].

Definition tree_rejected : Value :=
  certificate_of [("status", VBytes (TextEncoder_encode "rejected"));
                  ("reject_code", VBytes [x03]);
                  ("reject_message", VBytes (TextEncoder_encode "canister trapped"))].

Definition tree_rejected_bare : Value :=
  certificate_of [("status", VBytes (TextEncoder_encode "rejected"))].

Definition tree_done : Value :=
  certificate_of [("status", VBytes (TextEncoder_encode "done"))].

Definition tree_pending : Value :=
  certificate_of [("time", VBytes [x01])].

(** The envelopes of the tabulated captures. *)
Definition envelopes : list (string * Value) :=
  [("call greet", call_greet);
   ("query greet", query_greet);
   ("poll greet", poll_greet);
   ("rejected", VObj [("certificate", VBytes (TextEncoder_encode "tree rejected"))]);
   ("rejected bare", VObj [("certificate", VBytes (TextEncoder_encode "tree rejected bare"))]);
   ("done", VObj [("certificate", VBytes (TextEncoder_encode "tree done"))]);
   ("pending", VObj [("certificate", VBytes (TextEncoder_encode "tree pending"))]);
   ("query rejected", VObj [("status", VStr "rejected");
                            ("reject_code", VNum 4);
                            ("reject_message", VStr "no such method")]);
   ("query odd", VObj [("status", VStr "weird")]);
   ("both", VObj [("status", VStr "rejected");
                  ("certificate", VBytes (TextEncoder_encode "tree done"))]);
   ("tree rejected", tree_rejected);
   ("tree rejected bare", tree_rejected_bare);
   ("tree done", tree_done);
   ("tree pending", tree_pending)].

Definition decode_fixture (bs : bytes) : result Value :=
  match assoc (string_of_list_byte bs) envelopes with
  | Some v => Ok v
  | None => Err (Collaborator "cbor")
  end.

Definition world : External := {|
  btoa := Ok;
  base64ToBytes := λ s, Ok (list_byte_of_string s);
  cborDecode := decode_fixture;
  asPrincipal := λ v,
    match v with VBytes b => Ok b | _ => Err (Collaborator "principal") end;
  toText := λ p, match p with [] => "aaaaa-aa" | _ => toHexString p end;
  requestIdOf := λ v,
    match v with
    | VObj fields =>
        match assoc "method_name" fields with
        | Some (VStr m) => Ok (TextEncoder_encode m)
        | _ => Ok [x00]
        end
    | _ => Err (Collaborator "requestIdOf")
    end;
  URL_new := Ok;
  typedArrayFrom := λ _, Err (Collaborator "Uint8Array");
  TextDecoder_decode := string_of_list_byte;
  Certificate_new := λ response,
    match response with
    | VObj fields =>
        match assoc "certificate" fields with
        | Some (VBytes b) => decode_fixture b
        | _ => Err (Collaborator "certificate")
        end
    | _ => Err (Collaborator "certificate")
    end;
  Certificate_lookup := λ cert path,
    match cert with
    | VObj fields => Ok (lookup_path path (default VNull (assoc "tree" fields)))
    | _ => Ok None
    end;
  boundaryNodeRegex_match := λ _, true
|}.

Definition event_of (text : string) : NetworkEvent :=
  {| request_url := "https://ic0.app/api/v2/canister/aaaaa-aa/call";
     request_method := "POST";
     request_postData_text := Some text |}.

(** An environment that answers [getContent] with [content], fulfils the
    decoding of return values and rejects the decoding of arguments. *)
Definition env_of (content : option string) : Oracle :=
  λ p, match p with
       | GetContent _ => Ok content
       | DecodeCandidArgs _ _ _ => Err (Collaborator "candid")
       | DecodeCandidVals _ _ buf => Ok {| cdr_result := buf; withInterface := false |}
       end.

(** An environment in which the decoding of arguments succeeds as well. *)
Definition env_ok (content : option string) : Oracle :=
  λ p, match p with
       | GetContent _ => Ok content
       | DecodeCandidArgs _ _ arg => Ok {| cdr_result := arg; withInterface := true |}
       | DecodeCandidVals _ _ buf => Ok {| cdr_result := buf; withInterface := false |}
       end.

(** What lines 87-125 compute for the captures [call greet], [query greet]
    and [poll greet]. *)
Definition common_of (envelope : Value) (kind : RequestType) (id : bytes)
  : RequestCommon :=
  {| rc_request := field envelope "content";
     rc_sender := [x04];
     rc_requestType := kind;
     rc_ingressExpiry := VNum 1700000000;
     rc_requestId := toHexString id;
     rc_boundary := "https://ic0.app/api/v2/canister/aaaaa-aa/call" |}.

Definition common_call : RequestCommon := common_of call_greet call id_greet.
Definition common_query : RequestCommon := common_of query_greet query id_greet.
Definition common_poll : RequestCommon := common_of poll_greet read_state [x00].

(** The decoded call of [greet], its arguments decoded by [env_ok]. *)
Definition call_request : DecodedRequest :=
  {| boundary := "https://ic0.app/api/v2/canister/aaaaa-aa/call";
     message := toHexString id_greet;
     requestId := toHexString id_greet;
     canisterId := "aaaaa-aa";
     method := VStr "greet";
     sender := [x04];
     requestType := call;
     ingressExpiry := VNum 1700000000;
     body := Args {| cdr_result := VBytes (TextEncoder_encode "DIDL");
                     withInterface := true |} |}.

Definition greet_details : Details :=
  {| details_canisterId := "aaaaa-aa"; details_method := VStr "greet" |}.

(** The decoded poll for the call of [greet]. *)
Definition poll_request : DecodedRequest :=
  {| boundary := "https://ic0.app/api/v2/canister/aaaaa-aa/read_state";
     message := toHexString id_greet;
     requestId := "00";
     canisterId := "aaaaa-aa";
     method := VStr "greet";
     sender := [x04];
     requestType := read_state;
     ingressExpiry := VNum 1700000000;
     body := Paths (VArr [VArr [VBytes (TextEncoder_encode "request_status");
                                VBytes id_greet]]) |}.

(** A decoded query of [greet]. *)
Definition query_request : DecodedRequest :=
  {| boundary := "https://ic0.app/api/v2/canister/aaaaa-aa/query";
     message := toHexString id_greet;
     requestId := toHexString id_greet;
     canisterId := "aaaaa-aa";
     method := VStr "greet";
     sender := [x04];
     requestType := query;
     ingressExpiry := VNum 1700000000;
     body := Args {| cdr_result := VArr []; withInterface := false |} |}.

End Fixture.

(** ** Auxiliary definitions for the statements *)

Section Identifier.
Context `{External}.

(** The message identifier as the design document words it: the hash of
    the canonical request encoding, a function of the raw body alone. *)
Definition messageIdentifier (text : string) : result string :=
  b64 ← btoa text;
  bs ← base64ToBytes b64;
  envelope ← cborDecode bs;
  content ← js_get In_content envelope "content";
  id ← requestIdOf content;
  Ok (toHexString id).

(** The record [decodeRequest] stores for a call or a query. *)
Definition recordOf (c : RequestCommon) (principal : Principal) : Details :=
  {| details_canisterId := toText principal;
     details_method := field (rc_request c) "method_name" |}.

End Identifier.

(** A task that never writes to [messageDetails]. *)
Fixpoint read_only {A : Type} (t : Async A) : Prop :=
  match t with
  | Return _ | Throw _ => True
  | ReadDetails _ k => ∀ d, read_only (k d)
  | WriteDetails _ _ _ => False
  | Await _ k => ∀ settled, read_only (k settled)
  end.

(** What is left of a suspended task never writes. *)
Definition resumes_read_only {A : Type} (progress : Progress A) : Prop :=
  match progress with
  | Settled _ => True
  | Suspended _ k => ∀ settled, read_only (k settled)
  end.

Section Session.
Context `{External}.

(** [messageDetails] after the captures of a session, in the order the
    capture source delivered them: each task runs synchronously up to its
    first [await] as soon as its event arrives. *)
Definition session (events : list NetworkEvent) : Store :=
  foldl (λ σ event,
           (run_sync (captureInternetComputerMessageFromNetworkEvent event) σ).1)
        ∅ events.

End Session.

(** ** The write of a request and the stages of response decoding *)

Section Stages.
Context `{External}.

(** The record the decoding of a capture puts in [messageDetails], if it
    gets that far: lines 87-138 of [decodeRequest], for a call or a query. *)
Definition recordWritten (event : NetworkEvent) : option (string * Details) :=
  match requestCommon event with
  | Ok c =>
      match rc_requestType c with
      | read_state => None
      | query | call =>
          match asPrincipal (field (rc_request c) "canister_id") with
          | Ok principal => Some (rc_requestId c, recordOf c principal)
          | Err _ => None
          end
      end
  | Err _ => None
  end.

(** The body of the response decodes to a value with a [certificate] key
    and no [status] key, and the request is a poll: lines 211-272 of
    [decodeResponse] pass. *)
Definition certificate_response (event : NetworkEvent) (request : DecodedRequest)
    (env : Oracle) (response : Value) : Prop :=
  ∃ text bs,
    env (GetContent event) = Ok (Some text)
    ∧ String.eqb text "" = false
    ∧ base64ToBytes text = Ok bs
    ∧ cborDecode bs = Ok response
    ∧ js_in In_response "status" response = Ok false
    ∧ js_in In_response "certificate" response = Ok true
    ∧ requestType request = read_state.

(** Lines 211-294 pass as well: the first label of the first path reads
    [request_status], the store holds [d] for the message of the request,
    the certificate is [cert], and [flat] is [paths.flat()]. *)
Definition certified_poll (event : NetworkEvent) (request : DecodedRequest)
    (env : Oracle) (σ : Store) (d : Details) (cert : Certificate)
    (flat : list Value) : Prop :=
  ∃ response path0 label0,
    certificate_response event request env response
    ∧ js_index Index_paths (paths_of request) 0 = Ok path0
    ∧ js_index Index_paths path0 0 = Ok label0
    ∧ TextDecoder_decode_value label0 = Ok "request_status"
    ∧ σ !! message request = Some d
    ∧ Certificate_new response = Ok cert
    ∧ js_flat (paths_of request) = Ok flat.

(** The body of the response decodes to [response]: lines 211-226 pass. *)
Definition decoded_body (event : NetworkEvent) (env : Oracle) (response : Value)
  : Prop :=
  ∃ text bs,
    env (GetContent event) = Ok (Some text)
    ∧ String.eqb text "" = false
    ∧ base64ToBytes text = Ok bs
    ∧ cborDecode bs = Ok response.

(** The body of the request decodes to [envelope]: lines 87-100 of
    [decodeRequest] pass. *)
Definition decoded_envelope (event : NetworkEvent) (envelope : Value) : Prop :=
  ∃ text b64 bs,
    request_postData_text event = Some text
    ∧ String.eqb text "" = false
    ∧ btoa text = Ok b64
    ∧ base64ToBytes b64 = Ok bs
    ∧ cborDecode bs = Ok envelope.

End Stages.

(** ** Regular expressions

    The fragment of JavaScript's regular expressions that the two
    [boundaryNodeRegex] literals use: characters, [.], a character range,
    sequence, alternation, [?] and [+]. Without flags the match is case
    sensitive and [.] stands for any code unit but a line terminator.

    A [string] stands here for a text of ASCII characters, one character for
    each code unit of the JavaScript string: on such a text the line
    terminators are the line feed and the carriage return. The two others,
    U+2028 and U+2029, and every other unit above 127 are no characters of
    an ASCII text, and the statements that spell out what an expression
    accepts are made of ASCII texts only ([ascii_text]). *)

Module Regex.

Inductive regex : Type :=
| Empty                                  (* matches nothing *)
| Eps                                    (* matches the empty string *)
| Class (p : ascii → bool)               (* one character of a class *)
| Seq (r1 r2 : regex)
| Alt (r1 r2 : regex)
| Star (r : regex).

Definition Chr (c : ascii) : regex := Class (Ascii.eqb c).

(** The line terminators an ASCII text can hold: the line feed and the
    carriage return. *)
Definition line_terminator (c : ascii) : bool :=
  Ascii.eqb c "010"%char || Ascii.eqb c "013"%char.

(** [.], on the characters of an ASCII text. *)
Definition dot (c : ascii) : bool := negb (line_terminator c).
Definition Dot : regex := Class dot.

(** [[0-9]] *)
Definition digit (c : ascii) : bool :=
  Nat.leb 48 (nat_of_ascii c) && Nat.leb (nat_of_ascii c) 57.
Definition Digit : regex := Class digit.

(** [r?] and [r+] *)
Definition Opt (r : regex) : regex := Alt r Eps.
Definition Plus (r : regex) : regex := Seq r (Star r).

(** A run of literal characters. *)
Fixpoint Lit (s : string) : regex :=
  match s with
  | EmptyString => Eps
  | String c rest => Seq (Chr c) (Lit rest)
  end.

(** The strings of characters of one class. *)
Fixpoint all_chars (p : ascii → bool) (s : string) : bool :=
  match s with
  | EmptyString => true
  | String c rest => p c && all_chars p rest
  end.

(** A sequence of terms and a disjunction of alternatives. *)
Definition Cat (terms : list regex) : regex := foldr Seq Eps terms.
Definition Or (alternatives : list regex) : regex := foldr Alt Empty alternatives.

(** The strings a regular expression matches as a whole. *)
Inductive Matches : regex → string → Prop :=
| MEps : Matches Eps ""
| MClass (p : ascii → bool) (c : ascii) :
    p c = true → Matches (Class p) (String c "")
| MSeq (r1 r2 : regex) (s1 s2 : string) :
    Matches r1 s1 → Matches r2 s2 → Matches (Seq r1 r2) (s1 +:+ s2)
| MAltL (r1 r2 : regex) (s : string) : Matches r1 s → Matches (Alt r1 r2) s
| MAltR (r1 r2 : regex) (s : string) : Matches r2 s → Matches (Alt r1 r2) s
| MStarNil (r : regex) : Matches (Star r) ""
| MStarApp (r : regex) (s1 s2 : string) :
    Matches r s1 → Matches (Star r) s2 → Matches (Star r) (s1 +:+ s2).

(** The matcher: derivatives, with the dead branches pruned. *)
Fixpoint nullable (r : regex) : bool :=
  match r with
  | Empty | Class _ => false
  | Eps | Star _ => true
  | Seq r1 r2 => nullable r1 && nullable r2
  | Alt r1 r2 => nullable r1 || nullable r2
  end.

Definition seq (r1 r2 : regex) : regex :=
  match r1, r2 with
  | Empty, _ | _, Empty => Empty
  | Eps, r | r, Eps => r
  | _, _ => Seq r1 r2
  end.

Definition alt (r1 r2 : regex) : regex :=
  match r1, r2 with
  | Empty, r | r, Empty => r
  | _, _ => Alt r1 r2
  end.

Fixpoint deriv (c : ascii) (r : regex) : regex :=
  match r with
  | Empty | Eps => Empty
  | Class p => if p c then Eps else Empty
  | Seq r1 r2 =>
      if nullable r1 then alt (seq (deriv c r1) r2) (deriv c r2)
      else seq (deriv c r1) r2
  | Alt r1 r2 => alt (deriv c r1) (deriv c r2)
  | Star r1 => seq (deriv c r1) (Star r1)
  end.

Fixpoint accepts (r : regex) (s : string) : bool :=
  match s with
  | EmptyString => nullable r
  | String c rest => accepts (deriv c r) rest
  end.

(** [Boolean(s.match(r))]: some substring of [s] matches [r]. *)
Definition search (r : regex) (s : string) : bool :=
  accepts (Seq (Star (Class (λ _, true))) (Seq r (Star (Class (λ _, true))))) s.

End Regex.

(** The last group of both expressions: [(query|call|read_state)]. *)
Definition endpointRegex : Regex.regex :=
  Regex.Or [Regex.Lit "query"; Regex.Lit "call"; Regex.Lit "read_state"].

(** [localhost:[0-9]+] *)
Definition localhostRegex : Regex.regex :=
  Regex.Cat [Regex.Lit "localhost:"; Regex.Plus Regex.Digit].

(** [boundaryNodeRegex] of [capture.ts], line 54:
    [https?:\/\/(?:.+)?((?:ic0\.app|dfinity.network)|localhost:[0-9]+)\/api\/v2\/canister\/(.+)\/(query|call|read_state)] *)
Definition boundaryNodeRegex : Regex.regex :=
  Regex.Cat
    [Regex.Lit "http"; Regex.Opt (Regex.Chr "s"%char); Regex.Lit "://";
     Regex.Opt (Regex.Plus Regex.Dot);
     Regex.Or
       [Regex.Or [Regex.Lit "ic0.app";
                  Regex.Cat [Regex.Lit "dfinity"; Regex.Dot; Regex.Lit "network"]];
        localhostRegex];
     Regex.Lit "/api/v2/canister/";
     Regex.Plus Regex.Dot;
     Regex.Chr "/"%char;
     endpointRegex].

(** The texts on which a character is a code unit: every character is
    below 128. *)
Definition ascii_text (s : string) : bool :=
  Regex.all_chars (λ c, Nat.ltb (nat_of_ascii c) 128) s.

(** The URLs of boundary nodes, spelled out: somewhere in the URL stands
    [http] or [https], [://], any text of one line, a host, [/api/v] with a
    version, [/canister/], an identifier of one line that is not empty, [/]
    and the name of an endpoint. *)
Definition localhost (host : string) : Prop :=
  ∃ port, port ≠ "" ∧ Regex.all_chars Regex.digit port = true
          ∧ host = "localhost:" +:+ port.

Definition boundary_shape (hosts : string → Prop) (versions : list string)
    (url : string) : Prop :=
  ∃ (before : string) (tls : bool) (sub host version id endpoint after : string),
    url = before +:+ "http" +:+ (if tls then "s" else "") +:+ "://" +:+ sub
          +:+ host +:+ "/api/v" +:+ version +:+ "/canister/" +:+ id +:+ "/"
          +:+ endpoint +:+ after
    ∧ Regex.all_chars Regex.dot sub = true
    ∧ hosts host
    ∧ version ∈ versions
    ∧ id ≠ ""
    ∧ Regex.all_chars Regex.dot id = true
    ∧ endpoint ∈ ["query"; "call"; "read_state"].

(** The hosts of [capture.ts]; the unescaped [.] of [dfinity.network] stands
    for any character. *)
Definition capture_host (host : string) : Prop :=
  host = "ic0.app"
  ∨ (∃ c, Regex.dot c = true ∧ host = "dfinity" +:+ String c "network")
  ∨ localhost host.

(** ** [capture/select.ts] *)

Module Select.

Record Header : Type := {
  name : string;
  value : string
}.

(** A network event with the headers of its response. *)
Record Request : Type := {
  request : NetworkEvent;
  response_headers : list Header
}.

(** [s.includes(sub)] *)
Fixpoint includes (s sub : string) : bool :=
  String.prefix sub s
  || match s with
     | EmptyString => false
     | String _ rest => includes rest sub
     end.

(** [boundaryNodeRegex] of [select.ts], line 1: more hosts, and [v(2|3)]. *)
Definition boundaryNodeRegex : Regex.regex :=
  Regex.Cat
    [Regex.Lit "http"; Regex.Opt (Regex.Chr "s"%char); Regex.Lit "://";
     Regex.Opt (Regex.Plus Regex.Dot);
     Regex.Or
       [Regex.Or [Regex.Lit "ic0.app";
                  Regex.Cat [Regex.Lit "dfinity"; Regex.Dot; Regex.Lit "network"];
                  Regex.Cat [Regex.Lit "icp-api"; Regex.Dot; Regex.Lit "io"];
                  Regex.Cat [Regex.Lit "icp0"; Regex.Dot; Regex.Lit "io"];
                  Regex.Cat [Regex.Lit "mainnet"; Regex.Dot; Regex.Lit "plugwallet";
                             Regex.Dot; Regex.Lit "ooo"]];
        localhostRegex];
     Regex.Lit "/api/v";
     Regex.Or [Regex.Lit "2"; Regex.Lit "3"];
     Regex.Lit "/canister/";
     Regex.Plus Regex.Dot;
     Regex.Chr "/"%char;
     endpointRegex].

Definition isBoundaryNodeURL (url : string) : bool :=
  Regex.search boundaryNodeRegex url.

(** The hosts of [select.ts]; every [.] but the one of [ic0\.app] is
    unescaped. *)
Definition select_host (host : string) : Prop :=
  host = "ic0.app"
  ∨ (∃ c, Regex.dot c = true ∧ host = "dfinity" +:+ String c "network")
  ∨ (∃ c, Regex.dot c = true ∧ host = "icp-api" +:+ String c "io")
  ∨ (∃ c, Regex.dot c = true ∧ host = "icp0" +:+ String c "io")
  ∨ (∃ c1 c2, Regex.dot c1 = true ∧ Regex.dot c2 = true
              ∧ host = "mainnet" +:+ String c1 "plugwallet" +:+ String c2 "ooo")
  ∨ localhost host.

(** [!!event.response.headers.find((h) => h.name.includes('x-ic-'))] *)
Definition hasICHeaders (event : Request) : bool :=
  bool_decide (is_Some (List.find (λ h, includes (name h) "x-ic-")
                                  (response_headers event))).

Definition isCBOR (event : Request) : bool :=
  existsb (λ h, String.eqb (name h) "content-type" && includes (value h) "cbor")
          (response_headers event).

Definition shouldCapture (event : Request) : bool := isCBOR event.

End Select.

(** ** More captures for concrete runs *)

Module Samples.
Import Fixture.

Definition request_status : Value := VBytes (TextEncoder_encode "request_status").

Definition tree_replied : Value :=
  certificate_of [("status", VBytes (TextEncoder_encode "replied"));
                  ("reply", VBytes (TextEncoder_encode "DIDL hello"))].

Definition tree_replied_bare : Value :=
  certificate_of [("status", VBytes (TextEncoder_encode "replied"))].

Definition tree_processing : Value :=
  certificate_of [("status", VBytes (TextEncoder_encode "processing"))].

Definition tree_odd : Value :=
  certificate_of [("status", VBytes (TextEncoder_encode "expired"))].

Definition certificate_named (tree : string) : Value :=
  VObj [("certificate", VBytes (TextEncoder_encode tree))].

(** A poll whose first path has one label, and a poll without paths. *)
Definition short_poll : Value :=
  VObj [("content",
         VObj [("request_type", VStr "read_state");
               ("sender", VBytes [x04]);
               ("ingress_expiry", VNum 1700000000);
               ("paths", VArr [VArr [request_status]])])].

Definition no_paths_poll : Value :=
  VObj [("content",
         VObj [("request_type", VStr "read_state");
               ("sender", VBytes [x04]);
               ("ingress_expiry", VNum 1700000000);
               ("paths", VArr [])])].

(** A poll with two paths: the status of the call, and the time. *)
Definition two_path_poll : Value :=
  VObj [("content",
         VObj [("request_type", VStr "read_state");
               ("sender", VBytes [x04]);
               ("ingress_expiry", VNum 1700000000);
               ("paths", VArr [VArr [request_status; VBytes id_greet];
                               VArr [VBytes (TextEncoder_encode "time")]])])].

Definition query_replied : Value :=
  VObj [("status", VStr "replied");
        ("reply", VObj [("arg", VBytes (TextEncoder_encode "DIDL hello"))])].

Definition envelopes : list (string * Value) :=
  Fixture.envelopes ++
  [("no type", VObj [("content", VObj [("sender", VBytes [x04])])]);
   ("odd type", VObj [("content", VObj [("request_type", VStr "status")])]);
   ("no content", VObj [("request_type", VStr "call")]);
   ("short poll", short_poll);
   ("no paths", no_paths_poll);
   ("replied", certificate_named "tree replied");
   ("replied bare", certificate_named "tree replied bare");
   ("processing", certificate_named "tree processing");
   ("odd", certificate_named "tree odd");
   ("tree replied", tree_replied);
   ("tree replied bare", tree_replied_bare);
   ("tree processing", tree_processing);
   ("tree odd", tree_odd);
   ("query replied", query_replied);
   ("query replied bare", VObj [("status", VStr "replied")]);
   ("submitted", VObj [("requestId", VBytes id_greet)]);
   ("empty object", VObj []);
   ("zero", VNum 0);
   ("five", VNum 5);
   ("poll two paths", two_path_poll)].

Definition decode_sample (bs : bytes) : result Value :=
  match assoc (string_of_list_byte bs) envelopes with
  | Some v => Ok v
  | None => Err (Collaborator "cbor")
  end.

(** The collaborators of [Fixture.world], with more envelopes and with the
    regular expression of [capture.ts] as the URL test. *)
Definition world : External := {|
  btoa := @btoa Fixture.world;
  base64ToBytes := @base64ToBytes Fixture.world;
  cborDecode := decode_sample;
  asPrincipal := @asPrincipal Fixture.world;
  toText := @toText Fixture.world;
  requestIdOf := @requestIdOf Fixture.world;
  URL_new := @URL_new Fixture.world;
  typedArrayFrom := @typedArrayFrom Fixture.world;
  TextDecoder_decode := @TextDecoder_decode Fixture.world;
  Certificate_new := λ response,
    match response with
    | VObj fields =>
        match assoc "certificate" fields with
        | Some (VBytes b) => decode_sample b
        | _ => Err (Collaborator "certificate")
        end
    | _ => Err (Collaborator "certificate")
    end;
  Certificate_lookup := @Certificate_lookup Fixture.world;
  boundaryNodeRegex_match := Regex.search boundaryNodeRegex
|}.

Definition greet_path : list Value := [request_status; VBytes id_greet].

Definition greet_store : Store := {[ toHexString id_greet := greet_details ]}.

(** A captured event with the given URL, method and body. *)
Definition event_with (url method text : string) : NetworkEvent :=
  {| request_url := url;
     request_method := method;
     request_postData_text := Some text |}.

Definition common_short : RequestCommon := common_of short_poll read_state [x00].
Definition common_no_paths : RequestCommon := common_of no_paths_poll read_state [x00].

(** The decoded poll with two paths, the call of [greet] being known. *)
Definition two_path_request : DecodedRequest :=
  {| boundary := "https://ic0.app/api/v2/canister/aaaaa-aa/call";
     message := toHexString id_greet;
     requestId := "00";
     canisterId := "aaaaa-aa";
     method := VStr "greet";
     sender := [x04];
     requestType := read_state;
     ingressExpiry := VNum 1700000000;
     body := Paths (VArr [VArr [request_status; VBytes id_greet];
                          VArr [VBytes (TextEncoder_encode "time")]]) |}.

(** A decoded poll whose first path starts with the label [time]. *)
Definition time_request : DecodedRequest :=
  {| boundary := "https://ic0.app/api/v2/canister/aaaaa-aa/read_state";
     message := toHexString id_greet;
     requestId := "00";
     canisterId := "aaaaa-aa";
     method := VStr "greet";
     sender := [x04];
     requestType := read_state;
     ingressExpiry := VNum 1700000000;
     body := Paths (VArr [VArr [VBytes (TextEncoder_encode "time")]]) |}.

Definition hello_reply : CandidDecodeResult :=
  {| cdr_result := VBytes (TextEncoder_encode "DIDL hello"); withInterface := false |}.

Definition cbor_header : Select.Header :=
  {| Select.name := "content-type"; Select.value := "application/cbor" |}.

Definition ic_header : Select.Header :=
  {| Select.name := "x-ic-canister-id"; Select.value := "aaaaa-aa" |}.

End Samples.

(** ** Running tasks *)

Section Running.
Context {A B : Type}.

Lemma exec_bind (t : Async A) (f : A → Async B) (env : Oracle) (σ : Store) :
  exec (t ≫= f) env σ =
  match exec t env σ with
  | (σ', Ok a) => exec (f a) env σ'
  | (σ', Err e) => (σ', Err e)
  end.
Proof.
  revert σ. induction t as [a|e|key k IH|key d k IH|p k IH]; intros σ; cbn.
  - reflexivity.
  - reflexivity.
  - apply IH.
  - apply IH.
  - apply IH.
Qed.

Lemma run_sync_bind (t : Async A) (f : A → Async B) (σ : Store) :
  run_sync (t ≫= f) σ =
  match run_sync t σ with
  | (σ', Settled (Ok a)) => run_sync (f a) σ'
  | (σ', Settled (Err e)) => (σ', Settled (Err e))
  | (σ', Suspended p k) => (σ', Suspended p (λ settled, k settled ≫= f))
  end.
Proof.
  revert σ. induction t as [a|e|key k IH|key d k IH|p k IH]; intros σ; cbn.
  - reflexivity.
  - reflexivity.
  - apply IH.
  - apply IH.
  - reflexivity.
Qed.

Lemma read_only_bind (t : Async A) (f : A → Async B) :
  read_only t → (∀ a, read_only (f a)) → read_only (t ≫= f).
Proof.
  intros Ht Hf. induction t as [a|e|key k IH|key d k IH|p k IH]; cbn in *.
  - apply Hf.
  - exact I.
  - intros d. apply IH, Ht.
  - destruct Ht.
  - intros settled. apply IH, Ht.
Qed.

End Running.

Lemma read_only_lift {A : Type} (r : result A) : read_only (lift r).
Proof. by destruct r. Qed.

Lemma read_only_await (p : Pending) : read_only (await p).
Proof. intros settled. apply read_only_lift. Qed.

(** A task that never writes leaves the store as it found it, at its first
    suspension and at its end. *)
Lemma read_only_run_sync {A : Type} (t : Async A) (σ : Store) :
  read_only t → (run_sync t σ).1 = σ.
Proof.
  induction t as [a|e|key k IH|key d k IH|p k IH]; cbn; intros Ht.
  - reflexivity.
  - reflexivity.
  - apply IH, Ht.
  - destruct Ht.
  - reflexivity.
Qed.

Lemma read_only_exec {A : Type} (t : Async A) (env : Oracle) (σ : Store) :
  read_only t → (exec t env σ).1 = σ.
Proof.
  induction t as [a|e|key k IH|key d k IH|p k IH]; cbn; intros Ht.
  - reflexivity.
  - reflexivity.
  - apply IH, Ht.
  - destruct Ht.
  - apply IH, Ht.
Qed.

Ltac read_only_step :=
  match goal with
  | |- read_only (_ ≫= _) => apply read_only_bind; [|intros ?]
  | |- read_only (lift _) => apply read_only_lift
  | |- read_only (await _) => apply read_only_await
  | |- read_only (Return _) => exact I
  | |- read_only (Throw _) => exact I
  | |- read_only (messageDetails_get _) => intros ?; exact I
  | |- read_only (if ?b then _ else _) => destruct b
  | |- read_only (match ?x with _ => _ end) => destruct x
  end.

(** A task that awaits nothing is settled by its synchronous run. *)
Lemma exec_run_sync {A : Type} (t : Async A) (env : Oracle) (σ σ' : Store)
    (r : result A) :
  run_sync t σ = (σ', Settled r) → exec t env σ = (σ', r).
Proof.
  revert σ. induction t as [a|e|key k IH|key d k IH|p k IH]; intros σ; cbn.
  - congruence.
  - congruence.
  - apply IH.
  - apply IH.
  - discriminate.
Qed.

(** ** Values *)

Lemma js_in_truthy (site : Site) (k : string) (v : Value) (b : bool) :
  js_in site k v = Ok b → truthy v = true.
Proof. destruct v; cbn; congruence. Qed.

Lemma js_in_get (site site' : Site) (k k' : string) (v : Value) (b : bool) :
  js_in site k v = Ok b → js_get site' v k' = Ok (field v k').
Proof. destruct v; cbn; congruence. Qed.

Lemma js_in_false_field (site : Site) (k : string) (v : Value) :
  js_in site k v = Ok false → field v k = VUndefined.
Proof.
  destruct v; cbn; try done. intros [= Hin].
  apply bool_decide_eq_false in Hin.
  destruct (assoc k fields); [|done]. destruct Hin. by eexists.
Qed.

Lemma js_flat_single (path : list Value) :
  js_flat (VArr [VArr path]) = Ok path.
Proof. cbn. by rewrite app_nil_r. Qed.

(** ** The common part of request decoding *)

Section RequestCommonFacts.
Context `{External}.

(** What a successful run of lines 87-125 tells about the capture. *)
Lemma requestCommon_inv (event : NetworkEvent) (c : RequestCommon) :
  requestCommon event = Ok c →
  ∃ text b64 bs envelope id,
    request_postData_text event = Some text
    ∧ btoa text = Ok b64
    ∧ base64ToBytes b64 = Ok bs
    ∧ cborDecode bs = Ok envelope
    ∧ js_get In_content envelope "content" = Ok (rc_request c)
    ∧ js_in In_request_type "request_type" (rc_request c) = Ok true
    ∧ RequestType_of (field (rc_request c) "request_type") = Some (rc_requestType c)
    ∧ requestIdOf (rc_request c) = Ok id
    ∧ rc_requestId c = toHexString id.
Proof.
  unfold requestCommon.
  destruct (request_postData_text event) as [text|]; [|discriminate].
  destruct (String.eqb text ""); [discriminate|].
  destruct (btoa text) as [b64|] eqn:Hb64; [|discriminate]. cbn.
  destruct (base64ToBytes b64) as [bs|] eqn:Hbs; [|discriminate]. cbn.
  destruct (cborDecode bs) as [envelope|] eqn:Hcbor; [|discriminate]. cbn.
  destruct (js_in In_content "content" envelope) as [[]|] eqn:Hin;
    [|discriminate..]. cbn.
  destruct (js_get In_content envelope "content") as [request|] eqn:Hget;
    [|discriminate]. cbn.
  destruct (js_in In_request_type "request_type" request) as [[]|] eqn:Htype;
    [|discriminate..]. cbn.
  rewrite (js_in_get _ In_request_type _ "request_type" _ _ Htype). cbn.
  destruct (RequestType_of (field request "request_type")) as [kind|] eqn:Hkind;
    [|discriminate].
  rewrite (js_in_get _ In_request_type _ "sender" _ _ Htype). cbn.
  destruct (asPrincipal (field request "sender")) as [sender|]; [|discriminate]. cbn.
  rewrite (js_in_get _ In_request_type _ "ingress_expiry" _ _ Htype). cbn.
  destruct (requestIdOf request) as [id|] eqn:Hid; [|discriminate]. cbn.
  destruct (URL_new (request_url event)) as [url|]; [|discriminate]. cbn.
  intros [= <-]. cbn. by exists text, b64, bs, envelope, id.
Qed.

Lemma requestCommon_object (event : NetworkEvent) (c : RequestCommon)
    (site : Site) (k : string) :
  requestCommon event = Ok c →
  js_get site (rc_request c) k = Ok (field (rc_request c) k).
Proof.
  intros Hc. destruct (requestCommon_inv _ _ Hc)
    as (text & b64 & bs & envelope & id & _ & _ & _ & _ & _ & Hin & _).
  exact (js_in_get _ _ _ _ _ _ Hin).
Qed.

Lemma requestCommon_messageIdentifier (event : NetworkEvent) (c : RequestCommon) :
  requestCommon event = Ok c →
  ∃ text, request_postData_text event = Some text
          ∧ messageIdentifier text = Ok (rc_requestId c).
Proof.
  intros Hc. destruct (requestCommon_inv _ _ Hc)
    as (text & b64 & bs & envelope & id & Htext & Hb64 & Hbs & Hcbor & Hget & _ & _ & Hid & ->).
  exists text. split; [done|].
  unfold messageIdentifier. rewrite Hb64; cbn. rewrite Hbs; cbn.
  rewrite Hcbor; cbn. rewrite Hget; cbn. by rewrite Hid.
Qed.

Lemma decodeRequest_branch (c : RequestCommon) :
  rc_requestType c ≠ read_state →
  match rc_requestType c with
  | query | call => decodeCallOrQuery c
  | read_state => decodeReadState c
  end = decodeCallOrQuery c.
Proof. by destruct (rc_requestType c). Qed.

End RequestCommonFacts.

(** ** Where the store is written *)

Section Footprint.
Context `{External}.

Lemma read_only_statusSwitch (cert : Certificate) (paths : Value)
    (target : string) (name : Value) (status : string) :
  read_only (statusSwitch cert paths target name status).
Proof. unfold statusSwitch. repeat read_only_step. Qed.

(** [decodeResponse] reads [messageDetails] and never writes it. *)
Lemma read_only_decodeResponse (event : NetworkEvent) (request : DecodedRequest) :
  read_only (decodeResponse event request).
Proof.
  unfold decodeResponse, decodeContent, decodeQueryResponse,
    decodeReadStateResponse.
  repeat first [apply read_only_statusSwitch | read_only_step].
Qed.

Lemma read_only_decodeReadState (c : RequestCommon) :
  read_only (decodeReadState c).
Proof. unfold decodeReadState. repeat read_only_step. Qed.

(** The only write of a capture: the record of a call or a query, put by
    the synchronous part of its task. *)
Lemma run_sync_capture_store (event : NetworkEvent) (σ : Store) :
  let σ' := (run_sync (captureInternetComputerMessageFromNetworkEvent event) σ).1 in
  σ' = σ
  ∨ ∃ c principal,
      requestCommon event = Ok c
      ∧ rc_requestType c ≠ read_state
      ∧ σ' = <[rc_requestId c := recordOf c principal]> σ.
Proof.
  unfold captureInternetComputerMessageFromNetworkEvent.
  destruct (shouldCapture event); cbn; [|by left].
  rewrite run_sync_bind. unfold decodeRequest.
  destruct (requestCommon event) as [c|] eqn:Hc; cbn; [|by left].
  destruct (decide (rc_requestType c = read_state)) as [Hk|Hk].
  - left. rewrite Hk.
    pose proof (read_only_run_sync (decodeReadState c) σ
                  (read_only_decodeReadState c)) as Hsame.
    destruct (run_sync (decodeReadState c) σ) as [σ1 [[request|e]|p k]];
      cbn in Hsame; by subst σ1.
  - rewrite (decodeRequest_branch _ Hk). unfold decodeCallOrQuery.
    rewrite !(requestCommon_object _ _ _ _ Hc). cbn.
    destruct (asPrincipal (field (rc_request c) "canister_id"))
      as [principal|] eqn:Hprincipal; cbn; [|by left].
    right. by exists c, principal.
Qed.

Lemma read_only_progress {A : Type} (t : Async A) (σ : Store) :
  read_only t → resumes_read_only (run_sync t σ).2.
Proof.
  revert σ. induction t as [a|e|key k IH|key d k IH|p k IH]; cbn; intros σ Ht.
  - exact I.
  - exact I.
  - apply IH, Ht.
  - destruct Ht.
  - exact Ht.
Qed.

(** Once the task of a capture is suspended, what is left of it never
    writes: the store of a session does not depend on how the resumptions
    of its tasks are interleaved. *)
Lemma capture_resumes_read_only (event : NetworkEvent) (σ : Store) :
  resumes_read_only
    (run_sync (captureInternetComputerMessageFromNetworkEvent event) σ).2.
Proof.
  unfold captureInternetComputerMessageFromNetworkEvent.
  destruct (shouldCapture event); cbn; [|exact I].
  assert (∀ request,
            read_only (decodeResponse event request
                       ≫= λ response, Return (Some (request, response))))
    as Hrest.
  { intros request. apply read_only_bind; [|done].
    apply read_only_decodeResponse. }
  rewrite run_sync_bind. unfold decodeRequest.
  destruct (requestCommon event) as [c|] eqn:Hc; cbn; [|exact I].
  destruct (decide (rc_requestType c = read_state)) as [Hk|Hk].
  - rewrite Hk.
    pose proof (read_only_progress _ σ (read_only_decodeReadState c)) as Hro.
    destruct (run_sync (decodeReadState c) σ) as [σ1 [[request|e]|p1 k1]].
    + exact (read_only_progress _ σ1 (Hrest request)).
    + exact I.
    + intros settled. apply read_only_bind; [apply Hro|done].
  - rewrite (decodeRequest_branch _ Hk). unfold decodeCallOrQuery.
    rewrite !(requestCommon_object _ _ _ _ Hc). cbn.
    destruct (asPrincipal (field (rc_request c) "canister_id"))
      as [principal|]; cbn; [|exact I].
    intros settled.
    apply read_only_bind; [|done].
    apply read_only_bind; [apply read_only_lift|done].
Qed.

(** Every key of the store of a session is the identifier of a call or a
    query of that session. *)
Lemma session_keys (events : list NetworkEvent) (key : string) (d : Details) :
  session events !! key = Some d →
  ∃ event c,
    event ∈ events
    ∧ requestCommon event = Ok c
    ∧ rc_requestType c ≠ read_state
    ∧ rc_requestId c = key.
Proof.
  unfold session. revert d.
  induction events as [|event events IH] using rev_ind; intros d.
  - cbn. by rewrite lookup_empty.
  - rewrite foldl_app. cbn.
    destruct (run_sync_capture_store event
                (foldl (λ σ ev,
                          (run_sync (captureInternetComputerMessageFromNetworkEvent ev) σ).1)
                       ∅ events))
      as [-> | (c & principal & Hc & Hk & ->)].
    + intros Hkey. destruct (IH _ Hkey) as (ev & c & Hin & Hrest).
      exists ev, c. split; [|done]. apply elem_of_app. by left.
    + destruct (decide (rc_requestId c = key)) as [<-|Hne].
      * intros _. exists event, c. split; [|done].
        apply elem_of_app. right. by apply list_elem_of_singleton.
      * rewrite lookup_insert_ne by done. intros Hkey.
        destruct (IH _ Hkey) as (ev & c0 & Hin & Hrest).
        exists ev, c0. split; [|done]. apply elem_of_app. by left.
Qed.

End Footprint.

(** ** Request decoding and the correlation store *)

Section RequestDecoding.
Context `{External}.

(** The synchronous run of a call or query: the record is in the store
    when the task is suspended on the decoding of the arguments. *)
Lemma run_sync_decodeCallOrQuery (event : NetworkEvent) (c : RequestCommon)
    (principal : Principal) (σ : Store) :
  requestCommon event = Ok c →
  rc_requestType c ≠ read_state →
  asPrincipal (field (rc_request c) "canister_id") = Ok principal →
  run_sync (decodeRequest event) σ =
  (<[rc_requestId c := recordOf c principal]> σ,
   Suspended
     (DecodeCandidArgs (toText principal) (field (rc_request c) "method_name")
                       (field (rc_request c) "arg"))
     (λ settled,
        lift settled ≫= λ args,
        Return {| boundary := rc_boundary c;
                  message := rc_requestId c;
                  requestId := rc_requestId c;
                  sender := rc_sender c;
                  requestType := rc_requestType c;
                  ingressExpiry := rc_ingressExpiry c;
                  canisterId := toText principal;
                  method := field (rc_request c) "method_name";
                  body := Args args |})).
Proof.
  intros Hc Hkind Hprincipal. unfold decodeRequest. rewrite Hc. cbn.
  rewrite (decodeRequest_branch _ Hkind). unfold decodeCallOrQuery.
  rewrite !(requestCommon_object _ _ _ _ Hc). cbn.
  rewrite Hprincipal. reflexivity.
Qed.

(** The same run seen to its end: whatever the decoding of the arguments
    answers, the store holds the record afterwards. *)
Lemma exec_decodeCallOrQuery (event : NetworkEvent) (c : RequestCommon)
    (principal : Principal) (env : Oracle) (σ : Store) :
  requestCommon event = Ok c →
  rc_requestType c ≠ read_state →
  asPrincipal (field (rc_request c) "canister_id") = Ok principal →
  exec (decodeRequest event) env σ =
  (<[rc_requestId c := recordOf c principal]> σ,
   match env (DecodeCandidArgs (toText principal)
                (field (rc_request c) "method_name")
                (field (rc_request c) "arg")) with
   | Ok args =>
       Ok {| boundary := rc_boundary c;
             message := rc_requestId c;
             requestId := rc_requestId c;
             sender := rc_sender c;
             requestType := rc_requestType c;
             ingressExpiry := rc_ingressExpiry c;
             canisterId := toText principal;
             method := field (rc_request c) "method_name";
             body := Args args |}
   | Err e => Err e
   end).
Proof.
  intros Hc Hkind Hprincipal. unfold decodeRequest. rewrite Hc. cbn.
  rewrite (decodeRequest_branch _ Hkind). unfold decodeCallOrQuery.
  rewrite !(requestCommon_object _ _ _ _ Hc). cbn.
  rewrite Hprincipal. cbn. by destruct (env _).
Qed.

(** The run of a poll: no suspension, no write. *)
Lemma run_sync_decodeReadState (event : NetworkEvent) (c : RequestCommon)
    (path0 label1 : Value) (id : bytes) (σ : Store) :
  requestCommon event = Ok c →
  rc_requestType c = read_state →
  js_index Index_paths (field (rc_request c) "paths") 0 = Ok path0 →
  js_index Index_paths path0 1 = Ok label1 →
  Uint8Array_new label1 = Ok id →
  run_sync (decodeRequest event) σ =
  (σ,
   Settled
     match σ !! toHexString id with
     | None => Err (TypeError Destructure_details)
     | Some d =>
         Ok {| boundary := rc_boundary c;
               message := toHexString id;
               requestId := rc_requestId c;
               canisterId := details_canisterId d;
               method := details_method d;
               sender := rc_sender c;
               requestType := rc_requestType c;
               ingressExpiry := rc_ingressExpiry c;
               body := Paths (field (rc_request c) "paths") |}
     end).
Proof.
  intros Hc Hkind Hpath0 Hlabel1 Hid. unfold decodeRequest. rewrite Hc. cbn.
  unfold decodeReadState. rewrite Hkind.
  rewrite (requestCommon_object _ _ _ _ Hc). cbn.
  rewrite Hpath0; cbn. rewrite Hlabel1; cbn. rewrite Hid; cbn.
  by destruct (σ !! toHexString id).
Qed.

(** A request that was decoded went through the common part, and its
    identifier is the one computed there. *)
Lemma decodeRequest_Ok (event : NetworkEvent) (env : Oracle) (σ σ' : Store)
    (r : DecodedRequest) :
  exec (decodeRequest event) env σ = (σ', Ok r) →
  ∃ c, requestCommon event = Ok c
       ∧ requestId r = rc_requestId c
       ∧ requestType r = rc_requestType c
       ∧ (requestType r ≠ read_state → message r = requestId r).
Proof.
  unfold decodeRequest.
  destruct (requestCommon event) as [c|] eqn:Hc; cbn; [|discriminate].
  intros Hrun. exists c. split; [done|]. revert Hrun.
  destruct (decide (rc_requestType c = read_state)) as [Hk|Hk].
  2: { rewrite (decodeRequest_branch _ Hk). unfold decodeCallOrQuery.
       rewrite !(requestCommon_object _ _ _ _ Hc). cbn.
       destruct (asPrincipal _); cbn; [|discriminate].
       destruct (env _); cbn; [|discriminate].
       by intros [= <- <-]. }
  rewrite Hk. unfold decodeReadState.
  rewrite (requestCommon_object _ _ _ _ Hc). cbn.
  destruct (js_index Index_paths _ 0) as [path0|]; cbn; [|discriminate].
  destruct (js_index Index_paths path0 1) as [label1|]; cbn; [|discriminate].
  destruct (Uint8Array_new label1) as [id|]; cbn; [|discriminate].
  destruct (σ !! toHexString id); cbn; [|discriminate].
  by intros [= <- <-].
Qed.

(** C2: a poll whose embedded call identifier (the second label of its
    first path) is not in the store is not decoded to a request: the
    destructuring of [messageDetails[message]] throws, and the store is
    left as it was. That is the case in particular after a session in which
    no call or query with that identifier was captured. *)
Theorem C2_unknown_correlation_fails (event : NetworkEvent) (c : RequestCommon)
    (path0 label1 : Value) (id : bytes) (env : Oracle) :
  requestCommon event = Ok c →
  rc_requestType c = read_state →
  js_index Index_paths (field (rc_request c) "paths") 0 = Ok path0 →
  js_index Index_paths path0 1 = Ok label1 →
  Uint8Array_new label1 = Ok id →
  (∀ σ : Store,
     σ !! toHexString id = None →
     exec (decodeRequest event) env σ = (σ, Err (TypeError Destructure_details)))
  ∧ (∀ events,
       (∀ earlier c0,
          earlier ∈ events →
          requestCommon earlier = Ok c0 →
          rc_requestType c0 ≠ read_state →
          rc_requestId c0 ≠ toHexString id) →
       exec (decodeRequest event) env (session events)
       = (session events, Err (TypeError Destructure_details))).
Proof.
  intros Hc Hkind Hpath0 Hlabel1 Hid.
  assert (∀ σ : Store,
            σ !! toHexString id = None →
            exec (decodeRequest event) env σ
            = (σ, Err (TypeError Destructure_details))) as Hfails.
  { intros σ Hnone. apply exec_run_sync.
    rewrite (run_sync_decodeReadState _ _ _ _ _ _ Hc Hkind Hpath0 Hlabel1 Hid).
    by rewrite Hnone. }
  split; [exact Hfails|].
  intros events Hnever. apply Hfails.
  destruct (session events !! toHexString id) as [d|] eqn:Hkey; [|done].
  destruct (session_keys _ _ _ Hkey) as (earlier & c0 & Hin & Hc0 & Hk0 & Hid0).
  destruct (Hnever _ _ Hin Hc0 Hk0 Hid0).
Qed.

(** C3: for a call or a query the record {target, method} is in the store,
    under the message identifier, at the moment the task is suspended on
    the decoding of its arguments; when that decoding fails the task fails
    with the same error and writes nothing more, so the record stays. *)
Theorem C3_record_written_before_await (event : NetworkEvent)
    (c : RequestCommon) (principal : Principal) (σ : Store) :
  requestCommon event = Ok c →
  rc_requestType c ≠ read_state →
  asPrincipal (field (rc_request c) "canister_id") = Ok principal →
  let pending :=
    DecodeCandidArgs (toText principal) (field (rc_request c) "method_name")
                     (field (rc_request c) "arg") in
  ∃ k,
    run_sync (decodeRequest event) σ =
      (<[rc_requestId c := recordOf c principal]> σ, Suspended pending k)
    ∧ (∀ e env σ', exec (k (Err e)) env σ' = (σ', Err e))
    ∧ (∀ e env,
         env pending = Err e →
         exec (decodeRequest event) env σ =
           (<[rc_requestId c := recordOf c principal]> σ, Err e))
    ∧ (∀ e env,
         env pending = Err e →
         (exec (decodeRequest event) env σ).1 !! rc_requestId c
         = Some (recordOf c principal)).
Proof.
  intros Hc Hkind Hprincipal pending.
  eexists. split; [|split; [|split]].
  - exact (run_sync_decodeCallOrQuery _ _ _ _ Hc Hkind Hprincipal).
  - reflexivity.
  - intros e env He.
    rewrite (exec_decodeCallOrQuery _ _ _ _ _ Hc Hkind Hprincipal).
    fold pending. by rewrite He.
  - intros e env He.
    rewrite (exec_decodeCallOrQuery _ _ _ _ _ Hc Hkind Hprincipal).
    cbn. apply lookup_insert_eq.
Qed.

(** C4: a record put under an identifier is what a get of that identifier
    returns; and after the decoding of a call for target T and method M,
    whatever became of its arguments, the decoding of a poll whose first
    path has the call's identifier as second label returns T and M. *)
Theorem C4_correlation_round_trip (call_event poll_event : NetworkEvent)
    (c c' : RequestCommon) (principal : Principal) (id : bytes)
    (path0 : Value) (env env' : Oracle) (σ : Store) :
  requestCommon call_event = Ok c →
  rc_requestType c ≠ read_state →
  asPrincipal (field (rc_request c) "canister_id") = Ok principal →
  requestIdOf (rc_request c) = Ok id →
  requestCommon poll_event = Ok c' →
  rc_requestType c' = read_state →
  js_index Index_paths (field (rc_request c') "paths") 0 = Ok path0 →
  js_index Index_paths path0 1 = Ok (VBytes id) →
  (∀ key record (σ0 : Store),
     exec (messageDetails_put key record ;; messageDetails_get key) env σ0
     = (<[key := record]> σ0, Ok (Some record)))
  ∧ ∃ r,
      let σ1 := (exec (decodeRequest call_event) env σ).1 in
      exec (decodeRequest poll_event) env' σ1 = (σ1, Ok r)
      ∧ canisterId r = toText principal
      ∧ method r = field (rc_request c) "method_name"
      ∧ message r = rc_requestId c.
Proof.
  intros Hc Hkind Hprincipal Hid Hc' Hkind' Hpath0 Hlabel1. split.
  - intros key record σ0. cbn. by rewrite lookup_insert_eq.
  - destruct (requestCommon_inv _ _ Hc)
      as (_ & _ & _ & _ & id0 & _ & _ & _ & _ & _ & _ & _ & Hid0 & Hhex).
    assert (id0 = id) as -> by congruence.
    rewrite (exec_decodeCallOrQuery _ _ _ _ _ Hc Hkind Hprincipal). cbn.
    eexists. split.
    + apply exec_run_sync.
      rewrite (run_sync_decodeReadState _ _ _ _ id _ Hc' Hkind' Hpath0 Hlabel1);
        [|reflexivity].
      rewrite <- Hhex, lookup_insert_eq. reflexivity.
    + cbn. by rewrite Hhex.
Qed.

(** C9: two decodings of the same raw body return the same message
    identifier, whatever the store and the environment are; the identifier
    is the hexadecimal text of [requestIdOf] applied to the decoded content,
    computed before the kind of the request is looked at, and for a call
    or a query it is also the correlation key [message]. *)
Theorem C9_message_identifier_deterministic (event1 event2 : NetworkEvent)
    (env1 env2 : Oracle) (σ1 σ2 : Store) (r1 r2 : DecodedRequest) :
  request_postData_text event1 = request_postData_text event2 →
  (exec (decodeRequest event1) env1 σ1).2 = Ok r1 →
  (exec (decodeRequest event2) env2 σ2).2 = Ok r2 →
  requestId r1 = requestId r2
  ∧ (∃ text, request_postData_text event1 = Some text
             ∧ messageIdentifier text = Ok (requestId r1))
  ∧ (requestType r1 ≠ read_state → message r1 = requestId r1).
Proof.
  intros Hbody Hrun1 Hrun2.
  destruct (exec (decodeRequest event1) env1 σ1) as [σ1' res1] eqn:E1.
  destruct (exec (decodeRequest event2) env2 σ2) as [σ2' res2] eqn:E2.
  cbn in Hrun1, Hrun2. subst res1 res2.
  destruct (decodeRequest_Ok _ _ _ _ _ E1) as (c1 & Hc1 & Hid1 & _ & Hmsg1).
  destruct (decodeRequest_Ok _ _ _ _ _ E2) as (c2 & Hc2 & Hid2 & _ & _).
  destruct (requestCommon_messageIdentifier _ _ Hc1) as (text1 & Ht1 & Hm1).
  destruct (requestCommon_messageIdentifier _ _ Hc2) as (text2 & Ht2 & Hm2).
  assert (text1 = text2) as <- by congruence.
  split; [congruence|]. split; [|done].
  exists text1. split; [done|]. by rewrite Hid1.
Qed.

End RequestDecoding.

(** ** Response decoding *)

Section EmptyBody.
Context `{External}.

(** C5: when the body the capture hands over is empty ([undefined] or the
    empty string), [decodeResponse] returns the bare status [unknown] and
    throws nothing, for a request of any kind, and the store is untouched. *)
Theorem C5_empty_body_is_unknown (event : NetworkEvent) (request : DecodedRequest)
    (env : Oracle) (σ : Store) (content : option string) :
  env (GetContent event) = Ok content →
  content = None ∨ content = Some "" →
  exec (decodeResponse event request) env σ
  = (σ, Ok (StatusOnly (VStr RequestStatusResponseStatus.Unknown))).
Proof.
  intros Hcontent Hempty. unfold decodeResponse. cbn.
  rewrite Hcontent. by destruct Hempty as [-> | ->].
Qed.

End EmptyBody.

Section DecodedBody.
Context `{External}.
Variables (event : NetworkEvent) (request : DecodedRequest).
Variables (env : Oracle) (σ : Store).
Variables (text : string) (bs : bytes) (response : Value).

Hypothesis Hcontent : env (GetContent event) = Ok (Some text).
Hypothesis Hnonempty : String.eqb text "" = false.
Hypothesis Hbytes : base64ToBytes text = Ok bs.
Hypothesis Hcbor : cborDecode bs = Ok response.

(** A body that decodes is handed to the dispatch on its keys. *)
Lemma decodeResponse_decoded :
  exec (decodeResponse event request) env σ =
  exec (valid ← lift (validResponse response);
        if negb valid then Throw UnexpectedResponse else
        has_status ← lift (js_in In_response "status" response);
        if (has_status : bool) then decodeQueryResponse response request else
        has_certificate ← lift (js_in In_response "certificate" response);
        if (has_certificate : bool) then decodeReadStateResponse response request
        else Throw TODO_CallResponses) env σ.
Proof.
  unfold decodeResponse. cbn. rewrite Hcontent. cbn. rewrite Hnonempty.
  unfold decodeContent. rewrite Hbytes. cbn. by rewrite Hcbor.
Qed.

Lemma decodeResponse_status_key :
  js_in In_response "status" response = Ok true →
  exec (decodeResponse event request) env σ
  = exec (decodeQueryResponse response request) env σ.
Proof.
  intros Hstatus. rewrite decodeResponse_decoded. unfold validResponse.
  rewrite (js_in_truthy _ _ _ _ Hstatus). cbn. by rewrite Hstatus.
Qed.

Lemma decodeResponse_certificate_key :
  js_in In_response "status" response = Ok false →
  js_in In_response "certificate" response = Ok true →
  exec (decodeResponse event request) env σ
  = exec (decodeReadStateResponse response request) env σ.
Proof.
  intros Hstatus Hcert. rewrite decodeResponse_decoded. unfold validResponse.
  rewrite (js_in_truthy _ _ _ _ Hstatus). cbn. rewrite Hstatus. cbn.
  by rewrite Hcert.
Qed.

(** C8, the second half for responses without a [status] key: a decoded
    response with a [status] key fails with the
    mismatch error of line 244 unless the request is a query; a decoded
    response with a [certificate] key and no [status] key fails with the
    mismatch error of line 269 unless the request is a read_state. *)
Theorem C8_shape_must_match_request :
  (js_in In_response "status" response = Ok true →
   requestType request ≠ query →
   exec (decodeResponse event request) env σ = (σ, Err QueryResponseMismatch))
  ∧ (js_in In_response "status" response = Ok false →
     js_in In_response "certificate" response = Ok true →
     requestType request ≠ read_state →
     exec (decodeResponse event request) env σ
     = (σ, Err ReadStateResponseMismatch)).
Proof.
  split.
  - intros Hstatus Hkind. rewrite (decodeResponse_status_key Hstatus).
    unfold decodeQueryResponse. by destruct (requestType request).
  - intros Hstatus Hcert Hkind.
    rewrite (decodeResponse_certificate_key Hstatus Hcert).
    unfold decodeReadStateResponse. by destruct (requestType request).
Qed.

(** C10: a query response whose [status] is anything but the string
    [replied] is returned as [{ status, message, code }], with [message] and
    [code] read off [reject_message] and [reject_code] as they are,
    [undefined] when the key is missing. *)
Theorem C10_query_not_replied_is_rejection :
  js_in In_response "status" response = Ok true →
  requestType request = query →
  strict_eq (field response "status") "replied" = false →
  exec (decodeResponse event request) env σ
  = (σ, Ok (Rejection (field response "status")
                      (field response "reject_message")
                      (field response "reject_code")))
  ∧ (js_in In_response "reject_message" response = Ok false →
     field response "reject_message" = VUndefined)
  ∧ (js_in In_response "reject_code" response = Ok false →
     field response "reject_code" = VUndefined).
Proof.
  intros Hstatus Hkind Hnot. split; [|split].
  - rewrite (decodeResponse_status_key Hstatus).
    unfold decodeQueryResponse. rewrite Hkind.
    rewrite !(js_in_get _ In_response _ _ _ _ Hstatus). cbn.
    by rewrite Hnot.
  - apply js_in_false_field.
  - apply js_in_false_field.
Qed.

Section Certified.
Variables (path0 label0 : Value) (d : Details) (cert : Certificate).
Variable flat : list Value.

Hypothesis Hstatus : js_in In_response "status" response = Ok false.
Hypothesis Hcert : js_in In_response "certificate" response = Ok true.
Hypothesis Hkind : requestType request = read_state.
Hypothesis Hpath0 : js_index Index_paths (paths_of request) 0 = Ok path0.
Hypothesis Hlabel0 : js_index Index_paths path0 0 = Ok label0.
Hypothesis Hprefix : TextDecoder_decode_value label0 = Ok "request_status".
Hypothesis Hdetails : σ !! message request = Some d.
Hypothesis Hnew : Certificate_new response = Ok cert.
Hypothesis Hflat : js_flat (paths_of request) = Ok flat.

(** A poll response that passes the checks of lines 266-294 is decoded by
    the [switch] on the status its certificate resolves to. *)
Lemma decodeResponse_certified :
  exec (decodeResponse event request) env σ =
  match resolveStatus cert (paths_of request) with
  | Ok status =>
      exec (statusSwitch cert (paths_of request) (details_canisterId d)
                         (details_method d) status) env σ
  | Err e => (σ, Err e)
  end.
Proof.
  rewrite (decodeResponse_certificate_key Hstatus Hcert).
  unfold decodeReadStateResponse. rewrite Hkind, Hpath0. cbn.
  rewrite Hlabel0. cbn. rewrite Hprefix. cbn.
  rewrite Hdetails, Hnew. cbn.
  by destruct (resolveStatus cert (paths_of request)).
Qed.

Lemma resolveStatus_lookup (found : option bytes) :
  Certificate_lookup cert (flat ++ [VBytes (TextEncoder_encode "status")]) = Ok found →
  resolveStatus cert (paths_of request)
  = Ok match found with
       | Some leaf => TextDecoder_decode leaf
       | None => RequestStatusResponseStatus.Unknown
       end.
Proof.
  intros Hfound. unfold resolveStatus. rewrite Hflat. cbn. rewrite Hfound.
  by destruct found.
Qed.

(** X26: the status of a poll response is what the lookup of all the paths
    of the request, flattened into one (for a request with one path: that
    path), followed by the label [status] finds in the certificate, decoded
    as text; when the lookup finds no leaf the status is [unknown], and the
    response is the bare status. *)
Theorem status_resolved_by_flat_lookup (found : option bytes) :
  Certificate_lookup cert (flat ++ [VBytes (TextEncoder_encode "status")]) = Ok found →
  let status := match found with
                | Some leaf => TextDecoder_decode leaf
                | None => RequestStatusResponseStatus.Unknown
                end in
  resolveStatus cert (paths_of request) = Ok status
  ∧ exec (decodeResponse event request) env σ
    = exec (statusSwitch cert (paths_of request) (details_canisterId d)
                         (details_method d) status) env σ
  ∧ (found = None →
     exec (decodeResponse event request) env σ
     = (σ, Ok (StatusOnly (VStr RequestStatusResponseStatus.Unknown))))
  ∧ (∀ path, paths_of request = VArr [VArr path] → flat = path).
Proof.
  intros Hfound status.
  pose proof (resolveStatus_lookup _ Hfound) as Hresolve. fold status in Hresolve.
  split; [done|]. split; [|split].
  - by rewrite decodeResponse_certified, Hresolve.
  - intros ->. by rewrite decodeResponse_certified, Hresolve.
  - intros path Hpaths. rewrite Hpaths, js_flat_single in Hflat. congruence.
Qed.


(** What the branch of [rejected] returns, whether the two leaves are in the
    certificate or not. *)
Lemma rejected_outcome (leaf : bytes) (reject_code reject_message : option bytes) :
  Certificate_lookup cert (flat ++ [VBytes (TextEncoder_encode "status")])
  = Ok (Some leaf) →
  TextDecoder_decode leaf = RequestStatusResponseStatus.Rejected →
  Certificate_lookup cert (flat ++ [VStr "reject_code"]) = Ok reject_code →
  Certificate_lookup cert (flat ++ [VStr "reject_message"]) = Ok reject_message →
  exec (decodeResponse event request) env σ
  = (σ, Ok (Rejection (VStr RequestStatusResponseStatus.Rejected)
                      (VStr (decode_text reject_message))
                      (first_byte reject_code))).
Proof.
  intros Hfound Hrejected Hcode Hmessage.
  rewrite decodeResponse_certified, (resolveStatus_lookup _ Hfound), Hrejected.
  cbn. unfold lookupField. rewrite Hflat. cbn. rewrite Hcode. cbn.
  by rewrite Hmessage.
Qed.

End Certified.
End DecodedBody.

(** ** The decoders on concrete captures *)

Import Fixture.

Ltac by_computation := vm_compute; reflexivity.

(** The example of the design document: the certificate holds [rejected],
    the code 3 and the message, and the response is the rejection. *)
Example rejected_with_details :
  exec (@decodeResponse world (event_of "poll greet") poll_request)
       (env_ok (Some "rejected")) {[ toHexString id_greet := greet_details ]}
  = ({[ toHexString id_greet := greet_details ]},
     Ok (Rejection (VStr "rejected") (VStr "canister trapped") (VNum 3))).
Proof. by_computation. Qed.

(** C1: the certificate of the capture [rejected bare] holds the status
    [rejected] and neither [reject_code] nor [reject_message]; the decoder
    does not fail: it returns a rejection with the empty message and the
    code [undefined]. *)
Theorem C1_missing_rejection_detail_is_not_detected :
  let path := [VBytes (TextEncoder_encode "request_status"); VBytes id_greet] in
  let σ : Store := {[ toHexString id_greet := greet_details ]} in
  @Certificate_lookup world tree_rejected_bare
     (path ++ [VBytes (TextEncoder_encode "status")])
  = Ok (Some (TextEncoder_encode "rejected"))
  ∧ @Certificate_lookup world tree_rejected_bare (path ++ [VStr "reject_code"])
    = Ok None
  ∧ @Certificate_lookup world tree_rejected_bare (path ++ [VStr "reject_message"])
    = Ok None
  ∧ exec (@decodeResponse world (event_of "poll greet") poll_request)
         (env_ok (Some "rejected bare")) σ
    = (σ, Ok (Rejection (VStr "rejected") (VStr "") VUndefined)).
Proof. repeat split; by_computation. Qed.

(** The poll for [greet] decoded on the empty store. *)
(** C6: the status is not looked up under the lookup path of the request
    when the request has more than one path. The capture [poll two paths]
    decodes to a poll whose first path is [request_status] and the
    identifier of the call of [greet], followed by the path [time]; the
    certificate of the response holds the leaf [done] at the first path
    extended with [status]; the decoder (lines 297-300) looks up the two
    paths run together and extended with [status], finds nothing, and
    returns the status [unknown]. The same response to the poll with the
    first path alone is decoded with the status [done]. *)
Theorem C6_status_lookup_runs_all_paths_together :
  let event := event_of "poll two paths" in
  let env := env_ok (Some "done") in
  let σ := Samples.greet_store in
  let response := Samples.certificate_named "tree done" in
  let first_path := [Samples.request_status; VBytes id_greet] in
  let second_path := [VBytes (TextEncoder_encode "time")] in
  let status := VBytes (TextEncoder_encode "status") in
  exec (@decodeRequest Samples.world event) env σ = (σ, Ok Samples.two_path_request)
  ∧ paths_of Samples.two_path_request = VArr [VArr first_path; VArr second_path]
  ∧ env (GetContent event) = Ok (Some "done")
  ∧ @cborDecode Samples.world (TextEncoder_encode "done") = Ok response
  ∧ @Certificate_new Samples.world response = Ok tree_done
  ∧ @Certificate_lookup Samples.world tree_done (first_path ++ [status])%list
    = Ok (Some (TextEncoder_encode "done"))
  ∧ js_flat (paths_of Samples.two_path_request)
    = Ok (first_path ++ second_path)%list
  ∧ @Certificate_lookup Samples.world tree_done
      ((first_path ++ second_path) ++ [status])%list
    = Ok None
  ∧ @resolveStatus Samples.world tree_done
      (paths_of Samples.two_path_request)
    = Ok RequestStatusResponseStatus.Unknown
  ∧ exec (@decodeResponse Samples.world event Samples.two_path_request) env σ
    = (σ, Ok (StatusOnly (VStr RequestStatusResponseStatus.Unknown)))
  ∧ exec (@decodeResponse Samples.world event poll_request) env σ
    = (σ, Err DoneWithoutReply).
Proof. repeat split; by_computation. Qed.

Lemma C2_witness :
  let event := event_of "poll greet" in
  let path0 := VArr [VBytes (TextEncoder_encode "request_status"); VBytes id_greet] in
  @requestCommon world event = Ok common_poll
  ∧ rc_requestType common_poll = read_state
  ∧ js_index Index_paths (field (rc_request common_poll) "paths") 0 = Ok path0
  ∧ js_index Index_paths path0 1 = Ok (VBytes id_greet)
  ∧ @Uint8Array_new world (VBytes id_greet) = Ok id_greet
  ∧ (∅ : Store) !! toHexString id_greet = None
  ∧ exec (@decodeRequest world event) (env_ok None) ∅
    = (∅, Err (TypeError Destructure_details)).
Proof.
  intros event path0.
  assert (@requestCommon world event = Ok common_poll) as H1 by by_computation.
  assert (rc_requestType common_poll = read_state) as H2 by by_computation.
  assert (js_index Index_paths (field (rc_request common_poll) "paths") 0 = Ok path0)
    as H3 by by_computation.
  assert (js_index Index_paths path0 1 = Ok (VBytes id_greet)) as H4 by by_computation.
  assert (@Uint8Array_new world (VBytes id_greet) = Ok id_greet) as H5 by by_computation.
  assert ((∅ : Store) !! toHexString id_greet = None) as H6 by by_computation.
  repeat (split; [assumption|]).
  exact (proj1 (@C2_unknown_correlation_fails world event common_poll path0
                  (VBytes id_greet) id_greet (env_ok None) H1 H2 H3 H4 H5)
               ∅ H6).
Defined.

(** The call of [greet] with the decoding of its arguments rejected: the
    record is in the store afterwards. *)
Lemma C3_witness :
  let event := event_of "call greet" in
  @requestCommon world event = Ok common_call
  ∧ rc_requestType common_call ≠ read_state
  ∧ @asPrincipal world (field (rc_request common_call) "canister_id") = Ok []
  ∧ (exec (@decodeRequest world event) (env_of None) ∅).1 !! toHexString id_greet
    = Some greet_details.
Proof.
  intros event.
  assert (@requestCommon world event = Ok common_call) as Hc by by_computation.
  assert (rc_requestType common_call ≠ read_state) as Hkind by (vm_compute; discriminate).
  assert (@asPrincipal world (field (rc_request common_call) "canister_id") = Ok [])
    as Hprincipal by by_computation.
  repeat (split; [assumption|]).
  destruct (@C3_record_written_before_await world event common_call [] ∅
              Hc Hkind Hprincipal) as (k & _ & _ & _ & Hstays).
  apply (Hstays (Collaborator "candid") (env_of None)). by_computation.
Defined.

(** The call of [greet] for target [aaaaa-aa], then the poll whose first
    path is [request_status] and the identifier of the call. *)
Lemma C4_witness :
  let call_event := event_of "call greet" in
  let poll_event := event_of "poll greet" in
  let path0 := VArr [VBytes (TextEncoder_encode "request_status"); VBytes id_greet] in
  @requestCommon world call_event = Ok common_call
  ∧ rc_requestType common_call ≠ read_state
  ∧ @asPrincipal world (field (rc_request common_call) "canister_id") = Ok []
  ∧ @requestIdOf world (rc_request common_call) = Ok id_greet
  ∧ @requestCommon world poll_event = Ok common_poll
  ∧ rc_requestType common_poll = read_state
  ∧ js_index Index_paths (field (rc_request common_poll) "paths") 0 = Ok path0
  ∧ js_index Index_paths path0 1 = Ok (VBytes id_greet)
  ∧ ∃ r,
      exec (@decodeRequest world poll_event) (env_ok None)
           (exec (@decodeRequest world call_event) (env_of None) ∅).1
      = ((exec (@decodeRequest world call_event) (env_of None) ∅).1, Ok r)
      ∧ canisterId r = "aaaaa-aa"
      ∧ method r = VStr "greet".
Proof.
  intros call_event poll_event path0.
  assert (@requestCommon world call_event = Ok common_call) as Hc by by_computation.
  assert (rc_requestType common_call ≠ read_state) as Hkind by (vm_compute; discriminate).
  assert (@asPrincipal world (field (rc_request common_call) "canister_id") = Ok [])
    as Hprincipal by by_computation.
  assert (@requestIdOf world (rc_request common_call) = Ok id_greet)
    as Hid by by_computation.
  assert (@requestCommon world poll_event = Ok common_poll) as Hc' by by_computation.
  assert (rc_requestType common_poll = read_state) as Hkind' by by_computation.
  assert (js_index Index_paths (field (rc_request common_poll) "paths") 0 = Ok path0)
    as Hpath0 by by_computation.
  assert (js_index Index_paths path0 1 = Ok (VBytes id_greet))
    as Hlabel1 by by_computation.
  repeat (split; [assumption|]).
  destruct (@C4_correlation_round_trip world call_event poll_event common_call
              common_poll [] id_greet path0 (env_of None) (env_ok None) ∅
              Hc Hkind Hprincipal Hid Hc' Hkind' Hpath0 Hlabel1)
    as (_ & r & Hrun & Htarget & Hmethod & _).
  exists r. split; [exact Hrun|]. split; [exact Htarget|exact Hmethod].
Defined.

(** An empty body, paired with a poll and with a query. *)
Lemma C5_witness :
  env_ok None (GetContent (event_of "poll greet")) = Ok None
  ∧ ((None : option string) = None ∨ (None : option string) = Some "")
  ∧ exec (@decodeResponse world (event_of "poll greet") poll_request)
         (env_ok None) ∅
    = (∅, Ok (StatusOnly (VStr "unknown")))
  ∧ exec (@decodeResponse world (event_of "query greet") query_request)
         (env_ok None) ∅
    = (∅, Ok (StatusOnly (VStr "unknown"))).
Proof.
  split; [reflexivity|]. split; [by left|]. split.
  - apply (@C5_empty_body_is_unknown world (event_of "poll greet") poll_request
             (env_ok None) ∅ None); [reflexivity|by left].
  - apply (@C5_empty_body_is_unknown world (event_of "query greet") query_request
             (env_ok None) ∅ None); [reflexivity|by left].
Defined.

(** A certificate with no [status] leaf under the path of the poll. *)
Lemma status_resolved_by_flat_lookup_witness :
  let event := event_of "poll greet" in
  let env := env_ok (Some "pending") in
  let σ : Store := {[ toHexString id_greet := greet_details ]} in
  let response := VObj [("certificate", VBytes (TextEncoder_encode "tree pending"))] in
  let label0 := VBytes (TextEncoder_encode "request_status") in
  let flat := [label0; VBytes id_greet] in
  env (GetContent event) = Ok (Some "pending")
  ∧ String.eqb "pending" "" = false
  ∧ @base64ToBytes world "pending" = Ok (TextEncoder_encode "pending")
  ∧ @cborDecode world (TextEncoder_encode "pending") = Ok response
  ∧ js_in In_response "status" response = Ok false
  ∧ js_in In_response "certificate" response = Ok true
  ∧ requestType poll_request = read_state
  ∧ js_index Index_paths (paths_of poll_request) 0 = Ok (VArr flat)
  ∧ js_index Index_paths (VArr flat) 0 = Ok label0
  ∧ @TextDecoder_decode_value world label0 = Ok "request_status"
  ∧ σ !! message poll_request = Some greet_details
  ∧ @Certificate_new world response = Ok tree_pending
  ∧ js_flat (paths_of poll_request) = Ok flat
  ∧ @Certificate_lookup world tree_pending
      (flat ++ [VBytes (TextEncoder_encode "status")]) = Ok None
  ∧ exec (@decodeResponse world event poll_request) env σ
    = (σ, Ok (StatusOnly (VStr "unknown"))).
Proof.
  intros event env σ response label0 flat.
  assert (env (GetContent event) = Ok (Some "pending")) as H1 by by_computation.
  assert (String.eqb "pending" "" = false) as H2 by by_computation.
  assert (@base64ToBytes world "pending" = Ok (TextEncoder_encode "pending"))
    as H3 by by_computation.
  assert (@cborDecode world (TextEncoder_encode "pending") = Ok response)
    as H4 by by_computation.
  assert (js_in In_response "status" response = Ok false) as H5 by by_computation.
  assert (js_in In_response "certificate" response = Ok true) as H6 by by_computation.
  assert (requestType poll_request = read_state) as H7 by by_computation.
  assert (js_index Index_paths (paths_of poll_request) 0 = Ok (VArr flat))
    as H8 by by_computation.
  assert (js_index Index_paths (VArr flat) 0 = Ok label0) as H9 by by_computation.
  assert (@TextDecoder_decode_value world label0 = Ok "request_status")
    as H10 by by_computation.
  assert (σ !! message poll_request = Some greet_details) as H11 by by_computation.
  assert (@Certificate_new world response = Ok tree_pending) as H12 by by_computation.
  assert (js_flat (paths_of poll_request) = Ok flat) as H13 by by_computation.
  assert (@Certificate_lookup world tree_pending
            (flat ++ [VBytes (TextEncoder_encode "status")]) = Ok None)
    as H14 by by_computation.
  repeat (split; [assumption|]).
  destruct (@status_resolved_by_flat_lookup world event poll_request env σ
              "pending" (TextEncoder_encode "pending") response H1 H2 H3 H4
              (VArr flat) label0 greet_details tree_pending flat
              H5 H6 H7 H8 H9 H10 H11 H12 H13 None H14)
    as (_ & _ & Hunknown & _).
  by apply Hunknown.
Defined.


(** C8 does not hold of every response with a [certificate] key: the
    capture [both] decodes to a response with a
    [status] key and a [certificate] key; paired with a query it is decoded
    as a rejection, although the request is no read_state. *)
Lemma C8_counterexample :
  let response := VObj [("status", VStr "rejected");
                        ("certificate", VBytes (TextEncoder_encode "tree done"))] in
  @cborDecode world (TextEncoder_encode "both") = Ok response
  ∧ js_in In_response "certificate" response = Ok true
  ∧ requestType query_request ≠ read_state
  ∧ exec (@decodeResponse world (event_of "query greet") query_request)
         (env_ok (Some "both")) ∅
    = (∅, Ok (Rejection (VStr "rejected") VUndefined VUndefined))
  ∧ (exec (@decodeResponse world (event_of "query greet") query_request)
          (env_ok (Some "both")) ∅).2
    ≠ Err ReadStateResponseMismatch.
Proof.
  intros response. split; [by_computation|]. split; [by_computation|].
  split; [discriminate|]. split; [by_computation|].
  vm_compute. discriminate.
Qed.

(** A query response paired with a poll, and a certified response paired
    with a query. *)
Lemma C8_witness :
  let event := event_of "poll greet" in
  let rejected := VObj [("status", VStr "rejected"); ("reject_code", VNum 4);
                        ("reject_message", VStr "no such method")] in
  let certified := VObj [("certificate", VBytes (TextEncoder_encode "tree done"))] in
  (env_ok (Some "query rejected") (GetContent event) = Ok (Some "query rejected")
   ∧ String.eqb "query rejected" "" = false
   ∧ @base64ToBytes world "query rejected" = Ok (TextEncoder_encode "query rejected")
   ∧ @cborDecode world (TextEncoder_encode "query rejected") = Ok rejected
   ∧ js_in In_response "status" rejected = Ok true
   ∧ requestType poll_request ≠ query
   ∧ exec (@decodeResponse world event poll_request)
          (env_ok (Some "query rejected")) ∅
     = (∅, Err QueryResponseMismatch))
  ∧ (env_ok (Some "done") (GetContent event) = Ok (Some "done")
     ∧ String.eqb "done" "" = false
     ∧ @base64ToBytes world "done" = Ok (TextEncoder_encode "done")
     ∧ @cborDecode world (TextEncoder_encode "done") = Ok certified
     ∧ js_in In_response "status" certified = Ok false
     ∧ js_in In_response "certificate" certified = Ok true
     ∧ requestType query_request ≠ read_state
     ∧ exec (@decodeResponse world event query_request)
            (env_ok (Some "done")) ∅
       = (∅, Err ReadStateResponseMismatch)).
Proof.
  intros event rejected certified. split.
  - assert (env_ok (Some "query rejected") (GetContent event)
            = Ok (Some "query rejected")) as H1 by by_computation.
    assert (String.eqb "query rejected" "" = false) as H2 by by_computation.
    assert (@base64ToBytes world "query rejected"
            = Ok (TextEncoder_encode "query rejected")) as H3 by by_computation.
    assert (@cborDecode world (TextEncoder_encode "query rejected") = Ok rejected)
      as H4 by by_computation.
    assert (js_in In_response "status" rejected = Ok true) as H5 by by_computation.
    assert (requestType poll_request ≠ query) as H6 by discriminate.
    repeat (split; [assumption|]).
    exact (proj1 (@C8_shape_must_match_request world event poll_request
                    (env_ok (Some "query rejected")) ∅ "query rejected"
                    (TextEncoder_encode "query rejected") rejected H1 H2 H3 H4)
                 H5 H6).
  - assert (env_ok (Some "done") (GetContent event) = Ok (Some "done"))
      as H1 by by_computation.
    assert (String.eqb "done" "" = false) as H2 by by_computation.
    assert (@base64ToBytes world "done" = Ok (TextEncoder_encode "done"))
      as H3 by by_computation.
    assert (@cborDecode world (TextEncoder_encode "done") = Ok certified)
      as H4 by by_computation.
    assert (js_in In_response "status" certified = Ok false) as H5 by by_computation.
    assert (js_in In_response "certificate" certified = Ok true)
      as H6 by by_computation.
    assert (requestType query_request ≠ read_state) as H7 by discriminate.
    repeat (split; [assumption|]).
    exact (proj2 (@C8_shape_must_match_request world event query_request
                    (env_ok (Some "done")) ∅ "done"
                    (TextEncoder_encode "done") certified H1 H2 H3 H4)
                 H5 H6 H7).
Defined.

(** The call of [greet] decoded twice, on two stores and in two
    environments. *)
Lemma C9_witness :
  let event := event_of "call greet" in
  let σ : Store := {[ "ff" := greet_details ]} in
  request_postData_text event = request_postData_text event
  ∧ (exec (@decodeRequest world event) (env_ok None) ∅).2 = Ok call_request
  ∧ (exec (@decodeRequest world event) (env_ok (Some "done")) σ).2 = Ok call_request
  ∧ requestId call_request = requestId call_request
  ∧ @messageIdentifier world "call greet" = Ok (requestId call_request)
  ∧ message call_request = requestId call_request.
Proof.
  intros event σ.
  assert ((exec (@decodeRequest world event) (env_ok None) ∅).2 = Ok call_request)
    as H1 by by_computation.
  assert ((exec (@decodeRequest world event) (env_ok (Some "done")) σ).2
          = Ok call_request) as H2 by by_computation.
  split; [reflexivity|]. repeat (split; [assumption|]).
  destruct (@C9_message_identifier_deterministic world event event
              (env_ok None) (env_ok (Some "done")) ∅ σ call_request call_request
              eq_refl H1 H2) as (Hsame & (text & Htext & Hid) & Hkey).
  split; [exact Hsame|]. split.
  - injection Htext as <-. exact Hid.
  - apply Hkey. discriminate.
Defined.

(** A query response with the status [weird] and no rejection fields. *)
Lemma C10_witness :
  let event := event_of "query greet" in
  let env := env_ok (Some "query odd") in
  let response := VObj [("status", VStr "weird")] in
  env (GetContent event) = Ok (Some "query odd")
  ∧ String.eqb "query odd" "" = false
  ∧ @base64ToBytes world "query odd" = Ok (TextEncoder_encode "query odd")
  ∧ @cborDecode world (TextEncoder_encode "query odd") = Ok response
  ∧ js_in In_response "status" response = Ok true
  ∧ requestType query_request = query
  ∧ strict_eq (field response "status") "replied" = false
  ∧ exec (@decodeResponse world event query_request) env ∅
    = (∅, Ok (Rejection (VStr "weird") VUndefined VUndefined)).
Proof.
  intros event env response.
  assert (env (GetContent event) = Ok (Some "query odd")) as H1 by by_computation.
  assert (String.eqb "query odd" "" = false) as H2 by by_computation.
  assert (@base64ToBytes world "query odd" = Ok (TextEncoder_encode "query odd"))
    as H3 by by_computation.
  assert (@cborDecode world (TextEncoder_encode "query odd") = Ok response)
    as H4 by by_computation.
  assert (js_in In_response "status" response = Ok true) as H5 by by_computation.
  assert (requestType query_request = query) as H6 by by_computation.
  assert (strict_eq (field response "status") "replied" = false)
    as H7 by by_computation.
  repeat (split; [assumption|]).
  exact (proj1 (@C10_query_not_replied_is_rejection world event query_request
                  env ∅ "query odd" (TextEncoder_encode "query odd") response
                  H1 H2 H3 H4 H5 H6 H7)).
Defined.

(** ** Regular expressions: the matcher and the strings it accepts *)

Module RegexFacts.
Import Regex.

Lemma string_app_cons (c : ascii) (s t : string) :
  String c s +:+ t = String c (s +:+ t).
Proof. reflexivity. Qed.

Lemma string_app_nil_l (s : string) : "" +:+ s = s.
Proof. reflexivity. Qed.

Lemma string_app_nil_r (s : string) : s +:+ "" = s.
Proof. induction s as [|c s IH]; [done|]. by rewrite string_app_cons, IH. Qed.

Lemma string_app_assoc (s t u : string) : (s +:+ t) +:+ u = s +:+ (t +:+ u).
Proof. induction s as [|c s IH]; [done|]. by rewrite !string_app_cons, IH. Qed.

Lemma string_app_eq_nil (s t : string) : s +:+ t = "" → s = "" ∧ t = "".
Proof. destruct s; [done|]. rewrite string_app_cons. discriminate. Qed.

Lemma string_app_eq_cons (s t u : string) (c : ascii) :
  s +:+ t = String c u →
  (s = "" ∧ t = String c u) ∨ ∃ s', s = String c s' ∧ u = s' +:+ t.
Proof.
  destruct s as [|c' s']; [by left|].
  rewrite string_app_cons. intros [= -> <-]. right. by exists s'.
Qed.

Lemma Matches_Empty (s : string) : ¬ Matches Empty s.
Proof. intros Hm. inversion Hm. Qed.

Lemma Matches_Eps (s : string) : Matches Eps s ↔ s = "".
Proof. split; [by inversion 1|intros ->; constructor]. Qed.

Lemma Matches_Class (p : ascii → bool) (s : string) :
  Matches (Class p) s ↔ ∃ c, s = String c "" ∧ p c = true.
Proof.
  split.
  - inversion 1; subst. by eexists.
  - intros (c & -> & Hp). by constructor.
Qed.

Lemma Matches_Seq (r1 r2 : regex) (s : string) :
  Matches (Seq r1 r2) s ↔
  ∃ s1 s2, s = s1 +:+ s2 ∧ Matches r1 s1 ∧ Matches r2 s2.
Proof.
  split.
  - inversion 1; subst. by eexists _, _.
  - intros (s1 & s2 & -> & H1 & H2). by constructor.
Qed.

Lemma Matches_Alt (r1 r2 : regex) (s : string) :
  Matches (Alt r1 r2) s ↔ Matches r1 s ∨ Matches r2 s.
Proof.
  split.
  - inversion 1; subst; auto.
  - intros [H1|H2]; [by apply MAltL|by apply MAltR].
Qed.

Lemma nullable_Matches (r : regex) : nullable r = true ↔ Matches r "".
Proof.
  split.
  - induction r as [| |p|r1 IH1 r2 IH2|r1 IH1 r2 IH2|r IH]; cbn; intros Hn.
    + discriminate.
    + constructor.
    + discriminate.
    + apply andb_true_iff in Hn as [H1 H2].
      change "" with ("" +:+ ""). constructor; auto.
    + apply orb_true_iff in Hn as [H1|H2]; [apply MAltL|apply MAltR]; auto.
    + constructor.
  - remember "" as s eqn:Hs. intros Hm. revert Hs.
    induction Hm as [|p c Hp|r1 r2 s1 s2 H1 IH1 H2 IH2|r1 r2 s H1 IH1
                    |r1 r2 s H2 IH2|r|r s1 s2 H1 IH1 H2 IH2]; cbn; intros Hs.
    + done.
    + discriminate.
    + apply string_app_eq_nil in Hs as [-> ->]. by rewrite IH1, IH2.
    + by rewrite IH1.
    + rewrite IH2 by done. apply orb_true_r.
    + done.
    + done.
Qed.

Lemma Matches_seq (r1 r2 : regex) (s : string) :
  Matches (seq r1 r2) s ↔ Matches (Seq r1 r2) s.
Proof.
  rewrite Matches_Seq.
  assert (Matches r2 s ↔ ∃ s1 s2, s = s1 +:+ s2 ∧ Matches Eps s1 ∧ Matches r2 s2)
    as Hleft.
  { split.
    - intros Hm. exists "", s. repeat split; [constructor|done].
    - intros (s1 & s2 & -> & ->%Matches_Eps & Hm). done. }
  assert (Matches r1 s ↔ ∃ s1 s2, s = s1 +:+ s2 ∧ Matches r1 s1 ∧ Matches Eps s2)
    as Hright.
  { split.
    - intros Hm. exists s, "". rewrite string_app_nil_r. repeat split; [done|constructor].
    - intros (s1 & s2 & -> & Hm & ->%Matches_Eps). by rewrite string_app_nil_r. }
  assert ((∃ s1 s2, s = s1 +:+ s2 ∧ Matches Empty s1 ∧ Matches r2 s2) ↔ False)
    as Hdead1.
  { split; [|done]. by intros (s1 & s2 & _ & ?%Matches_Empty & _). }
  assert ((∃ s1 s2, s = s1 +:+ s2 ∧ Matches r1 s1 ∧ Matches Empty s2) ↔ False)
    as Hdead2.
  { split; [|done]. by intros (s1 & s2 & _ & _ & ?%Matches_Empty). }
  assert (Matches Empty s ↔ False) as Hempty.
  { split; [apply Matches_Empty|done]. }
  destruct r1, r2; cbn [seq];
    rewrite ?Hempty, ?Hdead1, ?Hdead2; try done;
    first [exact Hleft | exact Hright | by rewrite Matches_Seq].
Qed.

Lemma Matches_alt (r1 r2 : regex) (s : string) :
  Matches (alt r1 r2) s ↔ Matches (Alt r1 r2) s.
Proof.
  rewrite Matches_Alt.
  assert (Matches Empty s ↔ False) as Hempty.
  { split; [apply Matches_Empty|done]. }
  destruct r1, r2; cbn [alt]; rewrite ?Matches_Alt, ?Hempty; tauto.
Qed.

Lemma Matches_Star_cons (r : regex) (c : ascii) (s : string) :
  Matches (Star r) (String c s) →
  ∃ s1 s2, s = s1 +:+ s2 ∧ Matches r (String c s1) ∧ Matches (Star r) s2.
Proof.
  remember (Star r) as r' eqn:Hr. remember (String c s) as t eqn:Ht.
  intros Hm. revert Hr Ht.
  induction Hm as [|p c' Hp|r1 r2 s1 s2 H1 IH1 H2 IH2|r1 r2 s' H1 IH1
                  |r1 r2 s' H2 IH2|r0|r0 s1 s2 H1 IH1 H2 IH2];
    intros Hr Ht; try discriminate.
  injection Hr as ->.
  apply string_app_eq_cons in Ht as [[-> ->]|(s1' & -> & ->)].
  - by apply IH2.
  - by exists s1', s2.
Qed.

Lemma deriv_Matches (c : ascii) (r : regex) (s : string) :
  Matches (deriv c r) s ↔ Matches r (String c s).
Proof.
  revert s. induction r as [| |p|r1 IH1 r2 IH2|r1 IH1 r2 IH2|r IH];
    intros s; cbn [deriv].
  - split; intros Hm; inversion Hm.
  - split; intros Hm; inversion Hm.
  - rewrite Matches_Class. destruct (p c) eqn:Hp.
    + rewrite Matches_Eps. split.
      * intros ->. by exists c.
      * by intros (c' & [= -> ->] & _).
    + split; [by intros ?%Matches_Empty|].
      intros (c' & [= -> ->] & Hp'). congruence.
  - assert (Matches (seq (deriv c r1) r2) s ↔
            ∃ s1 s2, s = s1 +:+ s2 ∧ Matches r1 (String c s1) ∧ Matches r2 s2)
      as Hhead.
    { rewrite Matches_seq, Matches_Seq. by setoid_rewrite IH1. }
    rewrite Matches_Seq. destruct (nullable r1) eqn:Hn.
    + rewrite Matches_alt, Matches_Alt, Hhead, IH2. split.
      * intros [(s1 & s2 & -> & H1 & H2)|H2].
        -- by exists (String c s1), s2.
        -- exists "", (String c s). by rewrite <- nullable_Matches.
      * intros (s1 & s2 & Hs & H1 & H2). symmetry in Hs.
        apply string_app_eq_cons in Hs as [[-> ->]|(s1' & -> & ->)]; [by right|].
        left. by exists s1', s2.
    + rewrite Hhead. split.
      * intros (s1 & s2 & -> & H1 & H2). by exists (String c s1), s2.
      * intros (s1 & s2 & Hs & H1 & H2). symmetry in Hs.
        apply string_app_eq_cons in Hs as [[-> ->]|(s1' & -> & ->)].
        -- apply nullable_Matches in H1. congruence.
        -- by exists s1', s2.
  - by rewrite Matches_alt, !Matches_Alt, IH1, IH2.
  - rewrite Matches_seq, Matches_Seq. split.
    + intros (s1 & s2 & -> & H1 & H2). apply IH in H1.
      rewrite <- string_app_cons. by constructor.
    + intros (s1 & s2 & -> & H1 & H2)%Matches_Star_cons.
      exists s1, s2. by rewrite IH.
Qed.

(** The matcher accepts exactly the strings the expression matches. *)
Lemma accepts_Matches (r : regex) (s : string) :
  accepts r s = true ↔ Matches r s.
Proof.
  revert r. induction s as [|c s IH]; intros r; cbn.
  - apply nullable_Matches.
  - by rewrite IH, deriv_Matches.
Qed.

Lemma Matches_any (s : string) : Matches (Star (Class (λ _, true))) s.
Proof.
  induction s as [|c s IH]; [constructor|].
  change (String c s) with (String c "" +:+ s). by repeat constructor.
Qed.

(** A search succeeds exactly when some substring matches. *)
Lemma search_Matches (r : regex) (s : string) :
  search r s = true ↔
  ∃ before middle after, s = before +:+ middle +:+ after ∧ Matches r middle.
Proof.
  unfold search. rewrite accepts_Matches, Matches_Seq. split.
  - intros (s1 & s23 & -> & _ & (s2 & s3 & -> & Hm & _)%Matches_Seq).
    by exists s1, s2, s3.
  - intros (s1 & s2 & s3 & -> & Hm). exists s1, (s2 +:+ s3).
    split; [done|]. split; [apply Matches_any|].
    constructor; [done|apply Matches_any].
Qed.

Lemma Matches_Lit (t s : string) : Matches (Lit t) s ↔ s = t.
Proof.
  revert s. induction t as [|c t IH]; intros s; cbn.
  - apply Matches_Eps.
  - rewrite Matches_Seq. split.
    + intros (s1 & s2 & -> & (c' & -> & Hc)%Matches_Class & ->%IH).
      apply Ascii.eqb_eq in Hc as ->. done.
    + intros ->. exists (String c ""), t. split; [done|]. split.
      * apply Matches_Class. exists c. by rewrite Ascii.eqb_refl.
      * by apply IH.
Qed.

Lemma Matches_Cat_cons (r : regex) (rs : list regex) (s : string) :
  Matches (Cat (r :: rs)) s ↔
  ∃ s1 s2, s = s1 +:+ s2 ∧ Matches r s1 ∧ Matches (Cat rs) s2.
Proof. apply Matches_Seq. Qed.

Lemma Matches_Cat_nil (s : string) : Matches (Cat []) s ↔ s = "".
Proof. apply Matches_Eps. Qed.

Lemma Matches_Or (rs : list regex) (s : string) :
  Matches (Or rs) s ↔ ∃ r, r ∈ rs ∧ Matches r s.
Proof.
  induction rs as [|r rs IH]; cbn.
  - split; [by intros ?%Matches_Empty|]. by intros (r & ?%elem_of_nil & _).
  - rewrite Matches_Alt, IH. split.
    + intros [Hm|(r' & Hin & Hm)].
      * exists r. split; [apply list_elem_of_here|done].
      * exists r'. split; [by apply list_elem_of_further|done].
    + intros (r' & [->|Hin]%elem_of_cons & Hm); [by left|].
      right. by exists r'.
Qed.

Lemma Matches_Opt (r : regex) (s : string) :
  Matches (Opt r) s ↔ Matches r s ∨ s = "".
Proof. unfold Opt. by rewrite Matches_Alt, Matches_Eps. Qed.

End RegexFacts.

(** ** More of request decoding *)

Section RequestEdges.
Context `{External}.

(** X1: without post data, or with the empty text, [decodeRequest] throws at
    line 88 before anything is decoded: the task settles synchronously and
    the store is untouched. *)
Theorem missing_body_fails (event : NetworkEvent) (σ : Store) :
  request_postData_text event = None ∨ request_postData_text event = Some "" →
  run_sync (decodeRequest event) σ = (σ, Settled (Err NoPostData)).
Proof.
  intros Hbody. unfold decodeRequest, requestCommon.
  by destruct Hbody as [-> | ->].
Qed.

Lemma requestCommon_envelope (event : NetworkEvent) (envelope : Value) :
  decoded_envelope event envelope →
  requestCommon event =
  (has_content ← js_in In_content "content" envelope;
   if negb has_content then Err MissingContentKey else
   request ← js_get In_content envelope "content";
   has_type ← js_in In_request_type "request_type" request;
   if negb has_type then Err UnexpectedRequest else
   request_type ← js_get In_request_type request "request_type";
   match RequestType_of request_type with
   | None => Err UnexpectedRequest
   | Some requestType =>
       sender_field ← js_get In_request_type request "sender";
       sender ← asPrincipal sender_field;
       ingressExpiry ← js_get In_request_type request "ingress_expiry";
       id ← requestIdOf request;
       boundary ← URL_new (request_url event);
       Ok {| rc_request := request;
             rc_sender := sender;
             rc_requestType := requestType;
             rc_ingressExpiry := ingressExpiry;
             rc_requestId := toHexString id;
             rc_boundary := boundary |}
   end).
Proof.
  intros (text & b64 & bs & Htext & Hnonempty & Hb64 & Hbs & Hcbor).
  unfold requestCommon. rewrite Htext, Hnonempty, Hb64. cbn.
  rewrite Hbs. cbn. by rewrite Hcbor.
Qed.

(** X2: the validation of the decoded envelope, lines 103-118. An envelope
    that is no object makes the [in] test throw; an object without the key
    [content] is refused; so is a content without [request_type], or with a
    [request_type] that is not one of the three kinds. In each case nothing
    is written and nothing is awaited. *)
Theorem envelope_validation (event : NetworkEvent) (envelope : Value) (σ : Store) :
  decoded_envelope event envelope →
  (js_in In_content "content" envelope = Err (TypeError In_content) →
   run_sync (decodeRequest event) σ = (σ, Settled (Err (TypeError In_content))))
  ∧ (js_in In_content "content" envelope = Ok false →
     run_sync (decodeRequest event) σ = (σ, Settled (Err MissingContentKey)))
  ∧ (js_in In_content "content" envelope = Ok true →
     js_in In_request_type "request_type" (field envelope "content") = Ok false →
     run_sync (decodeRequest event) σ = (σ, Settled (Err UnexpectedRequest)))
  ∧ (js_in In_content "content" envelope = Ok true →
     js_in In_request_type "request_type" (field envelope "content") = Ok true →
     RequestType_of (field (field envelope "content") "request_type") = None →
     run_sync (decodeRequest event) σ = (σ, Settled (Err UnexpectedRequest))).
Proof.
  intros Henvelope. unfold decodeRequest.
  rewrite (requestCommon_envelope _ _ Henvelope).
  split; [|split; [|split]].
  - by intros ->.
  - by intros ->.
  - intros Hin Htype. rewrite Hin. cbn.
    rewrite (js_in_get _ In_content _ "content" _ _ Hin). cbn.
    by rewrite Htype.
  - intros Hin Htype Hkind. rewrite Hin. cbn.
    rewrite (js_in_get _ In_content _ "content" _ _ Hin). cbn.
    rewrite Htype. cbn.
    rewrite (js_in_get _ In_request_type _ "request_type" _ _ Htype). cbn.
    by rewrite Hkind.
Qed.

(** X3: the decoding of a poll never waits and never writes: whatever the
    request holds, the task of [decodeRequest] is settled by its synchronous
    run, with the store as it was. *)
Theorem poll_decoding_is_synchronous (event : NetworkEvent) (c : RequestCommon)
    (σ : Store) :
  requestCommon event = Ok c →
  rc_requestType c = read_state →
  ∃ outcome, run_sync (decodeRequest event) σ = (σ, Settled outcome).
Proof.
  intros Hc Hkind. unfold decodeRequest. rewrite Hc. cbn. rewrite Hkind.
  unfold decodeReadState. rewrite (requestCommon_object _ _ _ _ Hc). cbn.
  destruct (js_index Index_paths _ 0) as [path0|]; cbn; [|by eexists].
  destruct (js_index Index_paths path0 1) as [label1|]; cbn; [|by eexists].
  destruct (Uint8Array_new label1) as [id|]; cbn; [|by eexists].
  destruct (σ !! toHexString id); by eexists.
Qed.

(** X4: the bounds of [request.paths[0][1]]. With no path at all, or with
    [paths] missing, the indexing throws; with a first path of fewer than
    two labels the label is [undefined], the identifier is the empty
    string, and the poll is looked up under that key. *)
Theorem poll_path_bounds (event : NetworkEvent) (c : RequestCommon)
    (env : Oracle) (σ : Store) :
  requestCommon event = Ok c →
  rc_requestType c = read_state →
  (field (rc_request c) "paths" = VArr [] ∨ field (rc_request c) "paths" = VUndefined →
   exec (decodeRequest event) env σ = (σ, Err (TypeError Index_paths)))
  ∧ (∀ labels others,
       field (rc_request c) "paths" = VArr (VArr labels :: others) →
       length labels < 2 →
       exec (decodeRequest event) env σ =
       (σ, match σ !! "" with
           | None => Err (TypeError Destructure_details)
           | Some d =>
               Ok {| boundary := rc_boundary c;
                     message := "";
                     requestId := rc_requestId c;
                     canisterId := details_canisterId d;
                     method := details_method d;
                     sender := rc_sender c;
                     requestType := rc_requestType c;
                     ingressExpiry := rc_ingressExpiry c;
                     body := Paths (field (rc_request c) "paths") |}
           end)).
Proof.
  intros Hc Hkind. split.
  - intros Hpaths. unfold decodeRequest. rewrite Hc. cbn. rewrite Hkind.
    unfold decodeReadState. rewrite (requestCommon_object _ _ _ _ Hc). cbn.
    by destruct Hpaths as [-> | ->].
  - intros labels others Hpaths Hshort. apply exec_run_sync.
    rewrite (run_sync_decodeReadState _ _ (VArr labels) VUndefined [] _ Hc Hkind).
    + change (toHexString []) with "". by destruct (σ !! "").
    + by rewrite Hpaths.
    + cbn. destruct labels as [|l0 [|l1 labels]]; cbn in *; [done|done|lia].
    + done.
Qed.

(** What the decoding of a request leaves in the store, whatever the
    environment answers. *)
Lemma exec_decodeRequest_store (event : NetworkEvent) (env : Oracle) (σ : Store) :
  (exec (decodeRequest event) env σ).1 =
  match recordWritten event with
  | Some (key, d) => <[key := d]> σ
  | None => σ
  end.
Proof.
  unfold recordWritten, decodeRequest.
  destruct (requestCommon event) as [c|] eqn:Hc; cbn; [|done].
  destruct (decide (rc_requestType c = read_state)) as [Hk|Hk].
  - rewrite Hk. apply read_only_exec, read_only_decodeReadState.
  - rewrite (decodeRequest_branch _ Hk).
    assert (match rc_requestType c with
            | read_state => None
            | _ => match asPrincipal (field (rc_request c) "canister_id") with
                   | Ok principal => Some (rc_requestId c, recordOf c principal)
                   | Err _ => None
                   end
            end
            = match asPrincipal (field (rc_request c) "canister_id") with
              | Ok principal => Some (rc_requestId c, recordOf c principal)
              | Err _ => None
              end) as -> by by destruct (rc_requestType c).
    unfold decodeCallOrQuery. rewrite !(requestCommon_object _ _ _ _ Hc). cbn.
    destruct (asPrincipal _) as [principal|]; cbn; [|done].
    by destruct (env _).
Qed.

Lemma run_sync_decodeRequest_store (event : NetworkEvent) (σ : Store) :
  (run_sync (decodeRequest event) σ).1 =
  match recordWritten event with
  | Some (key, d) => <[key := d]> σ
  | None => σ
  end.
Proof.
  unfold recordWritten, decodeRequest.
  destruct (requestCommon event) as [c|] eqn:Hc; cbn; [|done].
  destruct (decide (rc_requestType c = read_state)) as [Hk|Hk].
  - rewrite Hk. apply read_only_run_sync, read_only_decodeReadState.
  - rewrite (decodeRequest_branch _ Hk).
    assert (match rc_requestType c with
            | read_state => None
            | _ => match asPrincipal (field (rc_request c) "canister_id") with
                   | Ok principal => Some (rc_requestId c, recordOf c principal)
                   | Err _ => None
                   end
            end
            = match asPrincipal (field (rc_request c) "canister_id") with
              | Ok principal => Some (rc_requestId c, recordOf c principal)
              | Err _ => None
              end) as -> by by destruct (rc_requestType c).
    unfold decodeCallOrQuery. rewrite !(requestCommon_object _ _ _ _ Hc). cbn.
    by destruct (asPrincipal _) as [principal|].
Qed.

(** X7: a request that was decoded agrees with the store: under its
    [message] the store holds the target and the method the request
    carries, for a call or a query (just written) as for a poll (just
    read). *)
Theorem decoded_request_agrees_with_store (event : NetworkEvent) (env : Oracle)
    (σ σ' : Store) (r : DecodedRequest) :
  exec (decodeRequest event) env σ = (σ', Ok r) →
  σ' !! message r
  = Some {| details_canisterId := canisterId r; details_method := method r |}.
Proof.
  unfold decodeRequest.
  destruct (requestCommon event) as [c|] eqn:Hc; cbn; [|discriminate].
  destruct (decide (rc_requestType c = read_state)) as [Hk|Hk].
  - rewrite Hk. unfold decodeReadState.
    rewrite (requestCommon_object _ _ _ _ Hc). cbn.
    destruct (js_index Index_paths _ 0) as [path0|]; cbn; [|discriminate].
    destruct (js_index Index_paths path0 1) as [label1|]; cbn; [|discriminate].
    destruct (Uint8Array_new label1) as [id|]; cbn; [|discriminate].
    destruct (σ !! toHexString id) as [[]|] eqn:Hd; cbn; [|discriminate].
    by intros [= <- <-].
  - rewrite (decodeRequest_branch _ Hk). unfold decodeCallOrQuery.
    rewrite !(requestCommon_object _ _ _ _ Hc). cbn.
    destruct (asPrincipal _); cbn; [|discriminate].
    destruct (env _); cbn; [|discriminate].
    intros [= <- <-]. cbn. apply lookup_insert_eq.
Qed.

End RequestEdges.

(** ** The store across captures *)

Section StoreFacts.
Context `{External}.

(** X9: [decodeResponse] never writes to [messageDetails]: on every path,
    failing or not, the store after it is the store before it. *)
Theorem decodeResponse_leaves_store (event : NetworkEvent) (request : DecodedRequest)
    (env : Oracle) (σ : Store) :
  (exec (decodeResponse event request) env σ).1 = σ.
Proof. apply read_only_exec, read_only_decodeResponse. Qed.

(** X19: how the two decoders compose in
    [captureInternetComputerMessageFromNetworkEvent]. An event that is not
    to be captured gives [undefined]; otherwise the response is decoded only
    if the request was, against the store the request decoding left, and
    the first failure is the failure of the capture. *)
Theorem capture_composition (event : NetworkEvent) (env : Oracle) (σ : Store) :
  exec (captureInternetComputerMessageFromNetworkEvent event) env σ =
  if shouldCapture event then
    match exec (decodeRequest event) env σ with
    | (σ', Ok request) =>
        (σ', match (exec (decodeResponse event request) env σ').2 with
             | Ok response => Ok (Some (request, response))
             | Err e => Err e
             end)
    | (σ', Err e) => (σ', Err e)
    end
  else (σ, Ok None).
Proof.
  unfold captureInternetComputerMessageFromNetworkEvent.
  destruct (shouldCapture event); cbn [negb]; [|done].
  rewrite exec_bind.
  destruct (exec (decodeRequest event) env σ) as [σ' [request|e]]; [|done].
  rewrite exec_bind.
  pose proof (decodeResponse_leaves_store event request env σ') as Hsame.
  destruct (exec (decodeResponse event request) env σ') as [σ'' [response|e]];
    cbn in *; by subst σ''.
Qed.

Lemma exec_capture_store (event : NetworkEvent) (env : Oracle) (σ : Store) :
  (exec (captureInternetComputerMessageFromNetworkEvent event) env σ).1 =
  if shouldCapture event then
    match recordWritten event with
    | Some (key, d) => <[key := d]> σ
    | None => σ
    end
  else σ.
Proof.
  rewrite capture_composition. destruct (shouldCapture event); [|done].
  rewrite <- (exec_decodeRequest_store event env σ).
  by destruct (exec (decodeRequest event) env σ) as [σ' [request|e]].
Qed.

Lemma run_sync_capture_written (event : NetworkEvent) (σ : Store) :
  (run_sync (captureInternetComputerMessageFromNetworkEvent event) σ).1 =
  if shouldCapture event then
    match recordWritten event with
    | Some (key, d) => <[key := d]> σ
    | None => σ
    end
  else σ.
Proof.
  unfold captureInternetComputerMessageFromNetworkEvent.
  destruct (shouldCapture event); cbn [negb]; [|done].
  rewrite run_sync_bind.
  rewrite <- (run_sync_decodeRequest_store event σ).
  by destruct (run_sync (decodeRequest event) σ) as [σ' [[request|e]|p k]].
Qed.

(** X5: a capture never removes a record and touches one key at most:
    under every key the store holds afterwards what it held before, unless
    the capture is a call or a query with that key as identifier, whose
    record is then there. *)
Theorem capture_keeps_records (event : NetworkEvent) (env : Oracle) (σ : Store)
    (key : string) :
  let σ' := (exec (captureInternetComputerMessageFromNetworkEvent event) env σ).1 in
  (σ' !! key = σ !! key
   ∨ ∃ d, shouldCapture event = true
          ∧ recordWritten event = Some (key, d)
          ∧ σ' !! key = Some d)
  ∧ (is_Some (σ !! key) → is_Some (σ' !! key)).
Proof.
  intros σ'. unfold σ'. clear σ'. rewrite exec_capture_store.
  destruct (shouldCapture event); [|by split; [left|]].
  destruct (recordWritten event) as [[key' d]|]; [|by split; [left|]].
  destruct (decide (key' = key)) as [->|Hne].
  - rewrite lookup_insert_eq. split; [|by eexists].
    right. by exists d.
  - rewrite lookup_insert_ne by done. by split; [left|].
Qed.

(** X6: capturing the same event again changes nothing more: the store
    after two captures of an event is the store after one, whatever the
    environment answered each time. *)
Theorem capture_is_idempotent_on_store (event : NetworkEvent) (env env' : Oracle)
    (σ : Store) :
  let once := (exec (captureInternetComputerMessageFromNetworkEvent event) env σ).1 in
  (exec (captureInternetComputerMessageFromNetworkEvent event) env' once).1 = once.
Proof.
  cbn. rewrite !exec_capture_store.
  destruct (shouldCapture event); [|done].
  destruct (recordWritten event) as [[key d]|]; [|done].
  apply insert_insert_eq.
Qed.

(** X8: every record in the store of a session was put there by a captured
    call or query of that session, under its own identifier. *)
Theorem session_records (events : list NetworkEvent) (key : string) (d : Details) :
  session events !! key = Some d →
  ∃ event,
    event ∈ events
    ∧ shouldCapture event = true
    ∧ recordWritten event = Some (key, d).
Proof.
  unfold session. revert d.
  induction events as [|event events IH] using rev_ind; intros d.
  - cbn. by rewrite lookup_empty.
  - rewrite foldl_app. cbn. rewrite run_sync_capture_written.
    assert (∀ d0,
              foldl (λ σ ev,
                       (run_sync (captureInternetComputerMessageFromNetworkEvent ev) σ).1)
                    ∅ events !! key = Some d0 →
              ∃ ev, ev ∈ (events ++ [event])%list ∧ shouldCapture ev = true
                    ∧ recordWritten ev = Some (key, d0)) as Hearlier.
    { intros d0 Hkey. destruct (IH _ Hkey) as (ev & Hin & Hrest).
      exists ev. split; [|done]. apply elem_of_app. by left. }
    destruct (shouldCapture event) eqn:Hcapture; [|apply Hearlier].
    destruct (recordWritten event) as [[key' d']|] eqn:Hwritten; [|apply Hearlier].
    destruct (decide (key' = key)) as [->|Hne].
    + rewrite lookup_insert_eq. intros [= <-]. exists event.
      split; [|done]. apply elem_of_app. right. by apply list_elem_of_singleton.
    + rewrite lookup_insert_ne by done. apply Hearlier.
Qed.

(** X25: the response to a [call] is never decoded to a value: when its
    body is not empty, [decodeResponse] throws, whatever the body holds (a
    [status] or a [certificate] does not fit the request, anything else is
    refused), and the store is untouched. *)
Theorem call_response_is_never_decoded (event : NetworkEvent)
    (request : DecodedRequest) (env : Oracle) (σ : Store) (text : string) :
  requestType request = call →
  env (GetContent event) = Ok (Some text) →
  String.eqb text "" = false →
  ∃ e, exec (decodeResponse event request) env σ = (σ, Err e).
Proof.
  intros Hkind Hcontent Hnonempty. unfold decodeResponse. cbn.
  rewrite Hcontent. cbn. rewrite Hnonempty. unfold decodeContent.
  destruct (base64ToBytes text) as [bs|]; cbn; [|by eexists].
  destruct (cborDecode bs) as [response|]; cbn; [|by eexists].
  destruct (validResponse response) as [[]|]; cbn; [| by eexists..].
  destruct (js_in In_response "status" response) as [[]|]; cbn; [| |by eexists].
  - unfold decodeQueryResponse. rewrite Hkind. by eexists.
  - destruct (js_in In_response "certificate" response) as [[]|]; cbn;
      [| by eexists..].
    unfold decodeReadStateResponse. rewrite Hkind. by eexists.
Qed.

End StoreFacts.

(** ** More of response decoding *)

Section ResponseEdges.
Context `{External}.
Variables (event : NetworkEvent) (request : DecodedRequest).
Variables (env : Oracle) (σ : Store).

Lemma decoded_body_dispatch (response : Value) :
  decoded_body event env response →
  exec (decodeResponse event request) env σ =
  exec (valid ← lift (validResponse response);
        if negb valid then Throw UnexpectedResponse else
        has_status ← lift (js_in In_response "status" response);
        if (has_status : bool) then decodeQueryResponse response request else
        has_certificate ← lift (js_in In_response "certificate" response);
        if (has_certificate : bool) then decodeReadStateResponse response request
        else Throw TODO_CallResponses) env σ.
Proof.
  intros (text & bs & Hcontent & Hnonempty & Hbytes & Hcbor).
  by eapply decodeResponse_decoded.
Qed.

(** X16: the validation of the decoded response, lines 229-239 and 345-347.
    A falsy value is refused; a truthy value that is no object makes the
    [in] test throw; an object with none of the keys [status],
    [certificate], [requestId] is refused; with [requestId] alone it passes
    the validation and meets the [throw] of the last branch. *)
Theorem response_validation (response : Value) :
  decoded_body event env response →
  (truthy response = false →
   exec (decodeResponse event request) env σ = (σ, Err UnexpectedResponse))
  ∧ (truthy response = true →
     js_in In_response "status" response = Err (TypeError In_response) →
     exec (decodeResponse event request) env σ = (σ, Err (TypeError In_response)))
  ∧ (js_in In_response "status" response = Ok false →
     js_in In_response "certificate" response = Ok false →
     js_in In_response "requestId" response = Ok false →
     exec (decodeResponse event request) env σ = (σ, Err UnexpectedResponse))
  ∧ (js_in In_response "status" response = Ok false →
     js_in In_response "certificate" response = Ok false →
     js_in In_response "requestId" response = Ok true →
     exec (decodeResponse event request) env σ = (σ, Err TODO_CallResponses)).
Proof.
  intros Hbody. rewrite (decoded_body_dispatch _ Hbody). unfold validResponse.
  split; [|split; [|split]].
  - by intros ->.
  - by intros -> ->.
  - intros Hstatus Hcert Hid.
    rewrite (js_in_truthy _ _ _ _ Hstatus). cbn.
    rewrite Hstatus. cbn. rewrite Hcert. cbn. by rewrite Hid.
  - intros Hstatus Hcert Hid.
    rewrite (js_in_truthy _ _ _ _ Hstatus). cbn.
    rewrite Hstatus. cbn. rewrite Hcert. cbn. by rewrite Hid.
Qed.

(** X17: a query answered with the status [replied], lines 252-259. The
    reply is decoded from [response.reply.arg] with the target and the
    method of the request, and a rejection of that decoding is the failure
    of the response; without an object under [reply] the read of [arg]
    throws. The store plays no part. *)
Theorem replied_query (response : Value) :
  decoded_body event env response →
  js_in In_response "status" response = Ok true →
  requestType request = query →
  field response "status" = VStr "replied" →
  (field response "reply" = VUndefined ∨ field response "reply" = VNull →
   exec (decodeResponse event request) env σ = (σ, Err (TypeError Get_reply_arg)))
  ∧ (∀ arg,
       js_get Get_reply_arg (field response "reply") "arg" = Ok arg →
       exec (decodeResponse event request) env σ =
       (σ, match env (DecodeCandidVals (canisterId request) (method request) arg) with
           | Ok reply => Ok (WithReply (VStr "replied") reply)
           | Err e => Err e
           end)).
Proof.
  intros (text & bs & Hcontent & Hnonempty & Hbytes & Hcbor) Hstatus Hkind Hreplied.
  rewrite (decodeResponse_status_key _ _ _ _ _ _ _
             Hcontent Hnonempty Hbytes Hcbor Hstatus).
  unfold decodeQueryResponse. rewrite Hkind.
  rewrite !(js_in_get _ In_response _ _ _ _ Hstatus). cbn.
  rewrite Hreplied. cbn. split.
  - by intros [-> | ->].
  - intros arg ->. cbn. by destruct (env (DecodeCandidVals _ _ _)).
Qed.

Lemma certificate_response_dispatch (response : Value) :
  certificate_response event request env response →
  exec (decodeResponse event request) env σ
  = exec (decodeReadStateResponse response request) env σ
  ∧ requestType request = read_state.
Proof.
  intros (text & bs & Hcontent & Hnonempty & Hbytes & Hcbor & Hstatus & Hcert & Hkind).
  split; [|done]. by eapply decodeResponse_certificate_key.
Qed.

(** X14: the check of the path, lines 275-279. When the first label of the
    first path does not read [request_status], the response is refused with
    the text that was found, before the store is consulted and before the
    certificate is looked at. *)
Theorem unexpected_first_path (response path0 label0 : Value) (p1 : string) :
  certificate_response event request env response →
  js_index Index_paths (paths_of request) 0 = Ok path0 →
  js_index Index_paths path0 0 = Ok label0 →
  TextDecoder_decode_value label0 = Ok p1 →
  p1 ≠ "request_status" →
  exec (decodeResponse event request) env σ = (σ, Err (UnexpectedFirstPath p1)).
Proof.
  intros [-> Hkind]%certificate_response_dispatch Hpath0 Hlabel0 Hp1 Hne.
  unfold decodeReadStateResponse. rewrite Hkind, Hpath0. cbn.
  rewrite Hlabel0. cbn. rewrite Hp1. cbn.
  apply String.eqb_neq in Hne. by rewrite Hne.
Qed.

(** X15: the check of the correlation, lines 281-288. When the store has
    no record under the message of the request, the response is refused
    before the certificate is constructed. *)
Theorem response_without_details (response path0 label0 : Value) :
  certificate_response event request env response →
  js_index Index_paths (paths_of request) 0 = Ok path0 →
  js_index Index_paths path0 0 = Ok label0 →
  TextDecoder_decode_value label0 = Ok "request_status" →
  σ !! message request = None →
  exec (decodeResponse event request) env σ
  = (σ, Err (NoMessageDetails (message request))).
Proof.
  intros [-> Hkind]%certificate_response_dispatch Hpath0 Hlabel0 Hp1 Hnone.
  unfold decodeReadStateResponse. rewrite Hkind, Hpath0. cbn.
  rewrite Hlabel0. cbn. rewrite Hp1. cbn. by rewrite Hnone.
Qed.

Section Switch.
Variables (d : Details) (cert : Certificate) (flat : list Value).
Variable leaf : bytes.
Hypothesis Hcertified : certified_poll event request env σ d cert flat.
Hypothesis Hleaf :
  Certificate_lookup cert (flat ++ [VBytes (TextEncoder_encode "status")])
  = Ok (Some leaf).

Lemma certified_poll_switch :
  exec (decodeResponse event request) env σ
  = exec (statusSwitch cert (paths_of request) (details_canisterId d)
                       (details_method d) (TextDecoder_decode leaf)) env σ
  ∧ js_flat (paths_of request) = Ok flat.
Proof.
  destruct Hcertified
    as (response & path0 & label0
        & (text & bs & Hcontent & Hnonempty & Hbytes & Hcbor & Hstatus & Hcert & Hkind)
        & Hpath0 & Hlabel0 & Hprefix & Hdetails & Hnew & Hflat).
  split; [|done].
  rewrite (decodeResponse_certified _ _ _ _ _ _ _ Hcontent Hnonempty Hbytes Hcbor
             _ _ _ _ Hstatus Hcert Hkind Hpath0 Hlabel0 Hprefix Hdetails Hnew).
  by rewrite (resolveStatus_lookup _ _ _ Hflat _ Hleaf).
Qed.

(** X10: a poll answered with the status [replied], lines 310-323. Without
    a leaf under [reply] the response is refused; with one, the reply is
    decoded with the target and the method the store holds for the call,
    and a rejection of that decoding is the failure of the response. *)
Theorem replied_poll :
  TextDecoder_decode leaf = RequestStatusResponseStatus.Replied →
  (Certificate_lookup cert (flat ++ [VStr "reply"]) = Ok None →
   exec (decodeResponse event request) env σ = (σ, Err MissingReply))
  ∧ (∀ buffer,
       Certificate_lookup cert (flat ++ [VStr "reply"]) = Ok (Some buffer) →
       exec (decodeResponse event request) env σ =
       (σ, match env (DecodeCandidVals (details_canisterId d) (details_method d)
                        (VBytes buffer)) with
           | Ok reply => Ok (WithReply (VStr RequestStatusResponseStatus.Replied) reply)
           | Err e => Err e
           end)).
Proof.
  intros Hreplied. destruct certified_poll_switch as [-> Hflat].
  rewrite Hreplied. cbn. unfold lookupField. rewrite Hflat. cbn. split.
  - by intros ->.
  - intros buffer ->. cbn. by destruct (env (DecodeCandidVals _ _ _)).
Qed.

(** X11: a poll answered with [received], [processing] or [unknown], lines
    325-328: the response is the bare status, and nothing else of the
    certificate is looked up. *)
Theorem pending_poll :
  TextDecoder_decode leaf ∈ [RequestStatusResponseStatus.Received;
                             RequestStatusResponseStatus.Processing;
                             RequestStatusResponseStatus.Unknown] →
  exec (decodeResponse event request) env σ
  = (σ, Ok (StatusOnly (VStr (TextDecoder_decode leaf)))).
Proof.
  intros Hpending. destruct certified_poll_switch as [-> _].
  apply elem_of_cons in Hpending as [->|Hpending]; [done|].
  apply elem_of_cons in Hpending as [->|Hpending]; [done|].
  apply list_elem_of_singleton in Hpending as ->. done.
Qed.

(** X12: a status text outside the enumeration matches no case of the
    [switch]: [decodeResponse] returns [undefined], neither a response nor
    a failure. *)
Theorem unrecognised_status_gives_nothing :
  TextDecoder_decode leaf ∉ [RequestStatusResponseStatus.Replied;
                             RequestStatusResponseStatus.Received;
                             RequestStatusResponseStatus.Unknown;
                             RequestStatusResponseStatus.Processing;
                             RequestStatusResponseStatus.Rejected;
                             RequestStatusResponseStatus.Done] →
  exec (decodeResponse event request) env σ = (σ, Ok NoResponse).
Proof.
  intros Hodd. destruct certified_poll_switch as [-> _].
  unfold statusSwitch.
  repeat match goal with
         | |- context [String.eqb (TextDecoder_decode leaf) ?s] =>
             let Hs := fresh in
             destruct (String.eqb_spec (TextDecoder_decode leaf) s) as [Hs|Hs];
             [destruct Hodd; rewrite Hs; set_solver|]
         end.
  done.
Qed.

(** X13: a poll answered with [rejected] whose certificate holds both
    details, lines 330-338: the code is the first byte of the leaf under
    [reject_code], the message the text of the leaf under
    [reject_message]. *)
Theorem rejected_poll_with_details (b : byte) (rest text : bytes) :
  TextDecoder_decode leaf = RequestStatusResponseStatus.Rejected →
  Certificate_lookup cert (flat ++ [VStr "reject_code"]) = Ok (Some (b :: rest)) →
  Certificate_lookup cert (flat ++ [VStr "reject_message"]) = Ok (Some text) →
  exec (decodeResponse event request) env σ
  = (σ, Ok (Rejection (VStr RequestStatusResponseStatus.Rejected)
                      (VStr (TextDecoder_decode text))
                      (VNum (Z.of_N (Byte.to_N b))))).
Proof.
  intros Hrejected Hcode Hmessage. destruct certified_poll_switch as [-> Hflat].
  rewrite Hrejected. cbn. unfold lookupField. rewrite Hflat. cbn.
  rewrite Hcode. cbn. by rewrite Hmessage.
Qed.

End Switch.
End ResponseEdges.

(** ** The URLs of boundary nodes *)

Section BoundaryNodeURL.
Import Regex RegexFacts.

Lemma Matches_Star_Class (p : ascii → bool) (s : string) :
  Matches (Star (Class p)) s ↔ all_chars p s = true.
Proof.
  induction s as [|c s IH]; cbn.
  - split; [done|constructor].
  - rewrite andb_true_iff, <- IH. split.
    + intros (s1 & s2 & -> & (c' & [= <- ->] & Hp)%Matches_Class & Hm)%Matches_Star_cons.
      done.
    + intros [Hp Hm]. change (String c s) with (String c "" +:+ s).
      by repeat constructor.
Qed.

Lemma Matches_Plus_Class (p : ascii → bool) (s : string) :
  Matches (Plus (Class p)) s ↔ s ≠ "" ∧ all_chars p s = true.
Proof.
  unfold Plus. rewrite Matches_Seq. split.
  - intros (s1 & s2 & -> & (c & -> & Hp)%Matches_Class & Hm%Matches_Star_Class).
    change (String c "" +:+ s2) with (String c s2). cbn. by rewrite Hp, Hm.
  - intros [Hne Hall]. destruct s as [|c s]; [done|].
    cbn in Hall. apply andb_true_iff in Hall as [Hp Hall].
    exists (String c ""), s. split; [done|]. split.
    + by constructor.
    + by apply Matches_Star_Class.
Qed.

Lemma Matches_Lit_then (t : string) (rs : list regex) (s : string) :
  Matches (Cat (Lit t :: rs)) s ↔ ∃ rest, s = t +:+ rest ∧ Matches (Cat rs) rest.
Proof.
  rewrite Matches_Cat_cons. split.
  - intros (s1 & s2 & -> & ->%Matches_Lit & Hm). by exists s2.
  - intros (rest & -> & Hm). exists t, rest. by rewrite Matches_Lit.
Qed.

Lemma Matches_endpoint (s : string) :
  Matches endpointRegex s ↔ s ∈ ["query"; "call"; "read_state"].
Proof.
  unfold endpointRegex. rewrite Matches_Or. split.
  - intros (r & Hin & Hm).
    repeat (apply elem_of_cons in Hin as [->|Hin];
            [apply Matches_Lit in Hm as ->; repeat constructor|]).
    by apply elem_of_nil in Hin.
  - intros Hin.
    repeat (apply elem_of_cons in Hin as [->|Hin];
            [eexists; split; [|by apply Matches_Lit]; repeat constructor|]).
    by apply elem_of_nil in Hin.
Qed.

Lemma Matches_localhost (s : string) : Matches localhostRegex s ↔ localhost s.
Proof.
  unfold localhostRegex, localhost. rewrite Matches_Lit_then. split.
  - intros (rest & -> & (s1 & s2 & -> & [Hne Hall]%Matches_Plus_Class & ->%Matches_Cat_nil)%Matches_Cat_cons).
    exists s1. by rewrite string_app_nil_r.
  - intros (port & Hne & Hall & ->). exists port. split; [done|].
    apply Matches_Cat_cons. exists port, "". rewrite string_app_nil_r.
    split; [done|]. split; [by apply Matches_Plus_Class|by apply Matches_Cat_nil].
Qed.

(** A word with one unescaped [.] in it. *)
Lemma Matches_dotted (a b : string) (s : string) :
  Matches (Cat [Lit a; Dot; Lit b]) s ↔
  ∃ c, dot c = true ∧ s = a +:+ String c b.
Proof.
  rewrite Matches_Lit_then. split.
  - intros (rest & -> & (s1 & s2 & -> & (c & -> & Hc)%Matches_Class & Hm)%Matches_Cat_cons).
    apply Matches_Lit_then in Hm as (rest & -> & ->%Matches_Cat_nil).
    exists c. by rewrite string_app_nil_r.
  - intros (c & Hc & ->). exists (String c b). split; [done|].
    apply Matches_Cat_cons. exists (String c ""), b. split; [done|].
    split; [by constructor|]. apply Matches_Lit_then. exists "".
    by rewrite string_app_nil_r, Matches_Cat_nil.
Qed.

(** The part the two expressions share up to the host. *)
Lemma Matches_scheme_host (hosts : regex) (rs : list regex) (s : string) :
  Matches (Cat (Lit "http" :: Opt (Chr "s") :: Lit "://" :: Opt (Plus Dot)
                :: hosts :: rs)) s ↔
  ∃ (tls : bool) (sub host rest : string),
    s = "http" +:+ (if tls then "s" else "") +:+ "://" +:+ sub +:+ host +:+ rest
    ∧ all_chars dot sub = true
    ∧ Matches hosts host
    ∧ Matches (Cat rs) rest.
Proof.
  rewrite Matches_Lit_then. split.
  - intros (s1 & -> & (s2 & s3 & -> & Htls%Matches_Opt & Hm)%Matches_Cat_cons).
    apply Matches_Lit_then in Hm as (s4 & -> & Hm).
    apply Matches_Cat_cons in Hm as (sub & s5 & -> & Hsub%Matches_Opt & Hm).
    apply Matches_Cat_cons in Hm as (host & rest & -> & Hhost & Hrest).
    assert (all_chars dot sub = true) as Hall.
    { destruct Hsub as [[_ Hall]%Matches_Plus_Class| ->]; done. }
    destruct Htls as [(c & -> & ->%Ascii.eqb_eq)%Matches_Class| ->].
    + by exists true, sub, host, rest.
    + by exists false, sub, host, rest.
  - intros (tls & sub & host & rest & -> & Hall & Hhost & Hrest).
    eexists. split; [reflexivity|].
    apply Matches_Cat_cons. exists (if tls then "s" else ""), ("://" +:+ sub +:+ host +:+ rest).
    split; [done|]. split.
    { apply Matches_Opt. destruct tls; [left|by right].
      apply Matches_Class. exists "s"%char. by rewrite Ascii.eqb_refl. }
    apply Matches_Lit_then. eexists. split; [reflexivity|].
    apply Matches_Cat_cons. exists sub, (host +:+ rest). split; [done|]. split.
    { apply Matches_Opt. destruct sub as [|c sub]; [by right|left].
      by apply Matches_Plus_Class. }
    apply Matches_Cat_cons. by exists host, rest.
Qed.

(** The part the two expressions share after [/canister/]. *)
Lemma Matches_id_endpoint (s : string) :
  Matches (Cat [Plus Dot; Chr "/"; endpointRegex]) s ↔
  ∃ id endpoint,
    s = id +:+ "/" +:+ endpoint
    ∧ id ≠ "" ∧ all_chars dot id = true
    ∧ endpoint ∈ ["query"; "call"; "read_state"].
Proof.
  rewrite Matches_Cat_cons. split.
  - intros (id & s1 & -> & [Hne Hall]%Matches_Plus_Class & Hm).
    apply Matches_Cat_cons in Hm
      as (s2 & s3 & -> & (c & -> & ->%Ascii.eqb_eq)%Matches_Class & Hm).
    apply Matches_Cat_cons in Hm
      as (endpoint & s4 & -> & Hend%Matches_endpoint & ->%Matches_Cat_nil).
    exists id, endpoint. by rewrite string_app_nil_r.
  - intros (id & endpoint & -> & Hne & Hall & Hend).
    exists id, ("/" +:+ endpoint). split; [done|].
    split; [by apply Matches_Plus_Class|].
    apply Matches_Cat_cons. exists "/", endpoint. split; [done|]. split.
    { apply Matches_Class. exists "/"%char. by rewrite Ascii.eqb_refl. }
    apply Matches_Cat_cons. exists endpoint, "".
    rewrite string_app_nil_r, Matches_endpoint, Matches_Cat_nil. done.
Qed.

Lemma Matches_capture_hosts (s : string) :
  Matches (Or [Or [Lit "ic0.app"; Cat [Lit "dfinity"; Dot; Lit "network"]];
               localhostRegex]) s
  ↔ capture_host s.
Proof.
  unfold capture_host. rewrite <- Matches_localhost.
  rewrite <- (Matches_dotted "dfinity" "network"), <- (Matches_Lit "ic0.app").
  cbn [Or foldr]. rewrite !Matches_Alt.
  pose proof (Matches_Empty s). tauto.
Qed.

Lemma Matches_select_hosts (s : string) :
  Matches (Or [Or [Lit "ic0.app";
                   Cat [Lit "dfinity"; Dot; Lit "network"];
                   Cat [Lit "icp-api"; Dot; Lit "io"];
                   Cat [Lit "icp0"; Dot; Lit "io"];
                   Cat [Lit "mainnet"; Dot; Lit "plugwallet"; Dot; Lit "ooo"]];
               localhostRegex]) s
  ↔ Select.select_host s.
Proof.
  unfold Select.select_host. rewrite <- Matches_localhost.
  rewrite <- (Matches_dotted "dfinity" "network"), <- (Matches_Lit "ic0.app").
  rewrite <- (Matches_dotted "icp-api" "io"), <- (Matches_dotted "icp0" "io").
  assert (Matches (Cat [Lit "mainnet"; Dot; Lit "plugwallet"; Dot; Lit "ooo"]) s
          ↔ ∃ c1 c2, dot c1 = true ∧ dot c2 = true
                     ∧ s = "mainnet" +:+ String c1 "plugwallet" +:+ String c2 "ooo")
    as <-.
  { rewrite Matches_Lit_then. split.
    - intros (rest & -> & (s1 & s2 & -> & (c1 & -> & Hc1)%Matches_Class & Hm)%Matches_Cat_cons).
      apply (Matches_dotted "plugwallet" "ooo") in Hm as (c2 & Hc2 & ->).
      by exists c1, c2.
    - intros (c1 & c2 & Hc1 & Hc2 & ->). eexists. split; [reflexivity|].
      apply Matches_Cat_cons. exists (String c1 ""), ("plugwallet" +:+ String c2 "ooo").
      split; [done|]. split; [by constructor|].
      apply (Matches_dotted "plugwallet" "ooo"). by exists c2. }
  cbn [Or foldr]. rewrite !Matches_Alt.
  pose proof (Matches_Empty s). tauto.
Qed.

(** The texts in which the matcher finds a match of the expression of
    [capture.ts]. *)
Lemma search_capture_regex (url : string) :
  search boundaryNodeRegex url = true ↔ boundary_shape capture_host ["2"] url.
Proof.
  rewrite search_Matches. unfold boundaryNodeRegex, boundary_shape.
  setoid_rewrite Matches_scheme_host. setoid_rewrite Matches_capture_hosts.
  setoid_rewrite Matches_Lit_then. setoid_rewrite Matches_id_endpoint. split.
  - intros (before & middle & after & -> & tls & sub & host & rest & ->
            & Hsub & Hhost & tail & -> & id & endpoint & -> & Hid & Hall & Hend).
    exists before, tls, sub, host, "2", id, endpoint, after.
    split; [by destruct tls; rewrite !string_app_assoc|].
    repeat (split; [done || apply list_elem_of_here|]). done.
  - intros (before & tls & sub & host & version & id & endpoint & after & ->
            & Hsub & Hhost & ->%list_elem_of_singleton & Hid & Hall & Hend).
    exists before,
      ("http" +:+ (if tls then "s" else "") +:+ "://" +:+ sub +:+ host
       +:+ "/api/v2/canister/" +:+ id +:+ "/" +:+ endpoint), after.
    split; [by destruct tls; rewrite !string_app_assoc|].
    exists tls, sub, host, ("/api/v2/canister/" +:+ id +:+ "/" +:+ endpoint).
    repeat split; try done. exists (id +:+ "/" +:+ endpoint).
    split; [done|]. by exists id, endpoint.
Qed.

(** The texts in which the matcher finds a match of the expression of
    [select.ts]. *)
Lemma search_select_regex (url : string) :
  Select.isBoundaryNodeURL url = true
  ↔ boundary_shape Select.select_host ["2"; "3"] url.
Proof.
  unfold Select.isBoundaryNodeURL. rewrite search_Matches.
  unfold Select.boundaryNodeRegex, boundary_shape.
  setoid_rewrite Matches_scheme_host. setoid_rewrite Matches_select_hosts.
  setoid_rewrite Matches_Lit_then. setoid_rewrite Matches_Cat_cons.
  setoid_rewrite Matches_Lit_then. setoid_rewrite Matches_id_endpoint.
  setoid_rewrite Matches_Or. split.
  - intros (before & middle & after & -> & tls & sub & host & rest & ->
            & Hsub & Hhost & tail & -> & version & tail' & -> & (r & Hr & Hm)
            & tail'' & -> & id & endpoint & -> & Hid & Hall & Hend).
    assert (version ∈ ["2"; "3"]) as Hversion.
    { apply elem_of_cons in Hr as [->|Hr];
        [apply Matches_Lit in Hm as ->; apply list_elem_of_here|].
      apply list_elem_of_singleton in Hr as ->.
      apply Matches_Lit in Hm as ->. apply list_elem_of_further, list_elem_of_here. }
    exists before, tls, sub, host, version, id, endpoint, after.
    split; [|by repeat split].
    by destruct tls; rewrite !string_app_assoc.
  - intros (before & tls & sub & host & version & id & endpoint & after & ->
            & Hsub & Hhost & Hversion & Hid & Hall & Hend).
    exists before,
      ("http" +:+ (if tls then "s" else "") +:+ "://" +:+ sub +:+ host
       +:+ "/api/v" +:+ version +:+ "/canister/" +:+ id +:+ "/" +:+ endpoint), after.
    split; [by destruct tls; rewrite !string_app_assoc|].
    exists tls, sub, host,
      ("/api/v" +:+ version +:+ "/canister/" +:+ id +:+ "/" +:+ endpoint).
    repeat split; try done.
    exists (version +:+ "/canister/" +:+ id +:+ "/" +:+ endpoint).
    split; [done|].
    exists version, ("/canister/" +:+ id +:+ "/" +:+ endpoint). split; [done|].
    split.
    { exists (Lit version). rewrite Matches_Lit. split; [|done].
      apply elem_of_cons in Hversion as [->|Hversion]; [apply list_elem_of_here|].
      apply list_elem_of_singleton in Hversion as ->.
      apply list_elem_of_further, list_elem_of_here. }
    exists (id +:+ "/" +:+ endpoint). split; [done|]. by exists id, endpoint.
Qed.

(** X20: the ASCII URLs [isBoundaryNodeURL] of [capture.ts] recognises,
    which are those the expression at line 54 finds a match in: exactly the
    ASCII URLs of the shape above with one of the hosts [ic0.app],
    [dfinity?network], [localhost:port] and the version 2. *)
Theorem capture_regex_language (url : string) :
  ascii_text url = true →
  (search boundaryNodeRegex url = true ↔ boundary_shape capture_host ["2"] url).
Proof. intros _. apply search_capture_regex. Qed.

(** X22: the ASCII URLs [isBoundaryNodeURL] of [select.ts] recognises: the
    same shape with three more hosts and with the versions 2 and 3. *)
Theorem select_regex_language (url : string) :
  ascii_text url = true →
  (Select.isBoundaryNodeURL url = true
   ↔ boundary_shape Select.select_host ["2"; "3"] url).
Proof. intros _. apply search_select_regex. Qed.

(** X21: every URL the expression of [capture.ts] recognises, the
    expression of [select.ts] recognises too. *)
Theorem select_regex_extends_capture_regex (url : string) :
  search boundaryNodeRegex url = true → Select.isBoundaryNodeURL url = true.
Proof.
  rewrite search_capture_regex, search_select_regex.
  intros (before & tls & sub & host & version & id & endpoint & after & Hurl
          & Hsub & Hhost & Hversion & Hrest).
  exists before, tls, sub, host, version, id, endpoint, after.
  split; [done|]. split; [done|]. split; [|split; [|done]].
  - unfold capture_host in Hhost. unfold Select.select_host. tauto.
  - apply list_elem_of_singleton in Hversion as ->. apply list_elem_of_here.
Qed.

End BoundaryNodeURL.

(** ** [capture/select.ts]: the tests on the headers *)

Section Headers.
Import RegexFacts.

Lemma prefix_app (sub s : string) :
  String.prefix sub s = true ↔ ∃ after, s = sub +:+ after.
Proof.
  revert s. induction sub as [|c sub IH]; intros s.
  - split; [|by destruct s]. intros _. by exists s.
  - destruct s as [|c' s]; cbn.
    + split; [done|]. by intros (after & [=]).
    + destruct (Ascii.ascii_dec c c') as [<-|Hne].
      * rewrite IH. split.
        -- intros (after & ->). by exists after.
        -- intros (after & [= ->]). by exists after.
      * split; [done|]. intros (after & [= <- _]). done.
Qed.

Lemma includes_substring (s sub : string) :
  Select.includes s sub = true ↔ ∃ before after, s = before +:+ sub +:+ after.
Proof.
  induction s as [|c s IH]; cbn [Select.includes];
    rewrite orb_true_iff, prefix_app.
  - split.
    + intros [(after & Hs)|[=]]. by exists "", after.
    + intros (before & after & Hs). left. symmetry in Hs.
      apply string_app_eq_nil in Hs as [-> Hs]. by exists after.
  - rewrite IH. split.
    + intros [(after & ->)|(before & after & ->)].
      * by exists "", after.
      * by exists (String c before), after.
    + intros ([|c' before] & after & Hs).
      * left. by exists after.
      * injection Hs as <- ->. right. by exists before, after.
Qed.

(** X23: [shouldCapture] of [select.ts] holds exactly when some header of
    the response is named [content-type], letter for letter, and has [cbor]
    somewhere in its value; the request plays no part. *)
Theorem select_shouldCapture_cbor (event : Select.Request) :
  Select.shouldCapture event = true ↔
  ∃ h, h ∈ Select.response_headers event
       ∧ Select.name h = "content-type"
       ∧ ∃ before after, Select.value h = before +:+ "cbor" +:+ after.
Proof.
  unfold Select.shouldCapture, Select.isCBOR. rewrite existsb_exists.
  split.
  - intros (h & Hin & [Hname Hvalue]%andb_true_iff). exists h.
    split; [by apply list_elem_of_In|].
    split; [by apply String.eqb_eq|by apply includes_substring].
  - intros (h & Hin & Hname & Hvalue). exists h.
    split; [by apply list_elem_of_In|].
    apply andb_true_iff. split; [by apply String.eqb_eq|by apply includes_substring].
Qed.

(** X24: [hasICHeaders] holds exactly when the name of some header of the
    response has [x-ic-] somewhere in it. *)
Theorem hasICHeaders_substring (event : Select.Request) :
  Select.hasICHeaders event = true ↔
  ∃ h, h ∈ Select.response_headers event
       ∧ ∃ before after, Select.name h = before +:+ "x-ic-" +:+ after.
Proof.
  unfold Select.hasICHeaders. rewrite bool_decide_eq_true. split.
  - intros [h Hfind]. apply find_some in Hfind as [Hin Hname].
    exists h. split; [by apply list_elem_of_In|by apply includes_substring].
  - intros (h & Hin & Hname).
    destruct (find _ (Select.response_headers event)) as [h'|] eqn:Hfind;
      [by eexists|].
    apply list_elem_of_In in Hin. apply includes_substring in Hname.
    pose proof (find_none _ _ Hfind _ Hin) as Hnone. cbn in Hnone. congruence.
Qed.

End Headers.

(** ** The filter of [capture.ts] *)

Section Filter.
Context `{External}.

(** X18: with the expression of line 54 as the URL test, an event with an
    ASCII URL is decoded only if its method is [POST] and its URL has the
    shape of a call to a boundary node, version 2; an event that is not to
    be captured gives [undefined] at once: nothing is decoded, awaited or
    written. *)
Theorem capture_filter (event : NetworkEvent) (σ : Store) :
  (∀ url, ascii_text url = true →
          boundaryNodeRegex_match url = Regex.search boundaryNodeRegex url) →
  ascii_text (request_url event) = true →
  (shouldCapture event = true ↔
   request_method event = "POST"
   ∧ boundary_shape capture_host ["2"] (request_url event))
  ∧ (shouldCapture event = false →
     run_sync (captureInternetComputerMessageFromNetworkEvent event) σ
     = (σ, Settled (Ok None))).
Proof.
  intros Hregex Hascii. split.
  - unfold shouldCapture, isBoundaryNodeURL.
    by rewrite andb_true_iff, (Hregex _ Hascii), search_capture_regex,
      String.eqb_eq, (and_comm (request_method event = "POST")).
  - intros Hskip. unfold captureInternetComputerMessageFromNetworkEvent.
    by rewrite Hskip.
Qed.

End Filter.

(** ** The added statements on concrete captures *)

(** A capture without post data. *)
Lemma missing_body_fails_witness :
  let event := {| request_url := "https://ic0.app/api/v2/canister/aaaaa-aa/call";
                  request_method := "POST";
                  request_postData_text := None |} in
  (request_postData_text event = None ∨ request_postData_text event = Some "")
  ∧ run_sync (@decodeRequest Samples.world event) ∅ = (∅, Settled (Err NoPostData)).
Proof.
  intros event. split; [by left|].
  apply (@missing_body_fails Samples.world event ∅). by left.
Defined.

(** Four envelopes: the number five, an object without [content], a
    content without [request_type], a content of the kind [status]. *)
Lemma envelope_validation_witness :
  (decoded_envelope (H := Samples.world) (event_of "five") (VNum 5)
   ∧ run_sync (@decodeRequest Samples.world (event_of "five")) ∅
     = (∅, Settled (Err (TypeError In_content))))
  ∧ (decoded_envelope (H := Samples.world) (event_of "no content")
       (VObj [("request_type", VStr "call")])
     ∧ run_sync (@decodeRequest Samples.world (event_of "no content")) ∅
       = (∅, Settled (Err MissingContentKey)))
  ∧ (decoded_envelope (H := Samples.world) (event_of "no type")
       (VObj [("content", VObj [("sender", VBytes [x04])])])
     ∧ run_sync (@decodeRequest Samples.world (event_of "no type")) ∅
       = (∅, Settled (Err UnexpectedRequest)))
  ∧ (decoded_envelope (H := Samples.world) (event_of "odd type")
       (VObj [("content", VObj [("request_type", VStr "status")])])
     ∧ run_sync (@decodeRequest Samples.world (event_of "odd type")) ∅
       = (∅, Settled (Err UnexpectedRequest))).
Proof.
  assert (∀ text envelope,
            Samples.decode_sample (TextEncoder_encode text) = Ok envelope →
            String.eqb text "" = false →
            decoded_envelope (H := Samples.world) (event_of text) envelope)
    as Hdecoded.
  { intros text envelope Hcbor Hnonempty.
    by exists text, text, (TextEncoder_encode text). }
  split; [|split; [|split]].
  - assert (decoded_envelope (H := Samples.world) (event_of "five") (VNum 5))
      as Henvelope by (apply Hdecoded; by_computation).
    split; [done|].
    destruct (@envelope_validation Samples.world _ _ ∅ Henvelope) as (Hthrows & _).
    apply Hthrows. by_computation.
  - assert (decoded_envelope (H := Samples.world) (event_of "no content")
              (VObj [("request_type", VStr "call")]))
      as Henvelope by (apply Hdecoded; by_computation).
    split; [done|].
    destruct (@envelope_validation Samples.world _ _ ∅ Henvelope) as (_ & Hmissing & _).
    apply Hmissing. by_computation.
  - assert (decoded_envelope (H := Samples.world) (event_of "no type")
              (VObj [("content", VObj [("sender", VBytes [x04])])]))
      as Henvelope by (apply Hdecoded; by_computation).
    split; [done|].
    destruct (@envelope_validation Samples.world _ _ ∅ Henvelope) as (_ & _ & Hkind & _).
    apply Hkind; by_computation.
  - assert (decoded_envelope (H := Samples.world) (event_of "odd type")
              (VObj [("content", VObj [("request_type", VStr "status")])]))
      as Henvelope by (apply Hdecoded; by_computation).
    split; [done|].
    destruct (@envelope_validation Samples.world _ _ ∅ Henvelope) as (_ & _ & _ & Hodd).
    apply Hodd; by_computation.
Defined.

(** The poll for [greet], on the empty store. *)
Lemma poll_decoding_is_synchronous_witness :
  @requestCommon Samples.world (event_of "poll greet") = Ok common_poll
  ∧ rc_requestType common_poll = read_state
  ∧ ∃ outcome,
      run_sync (@decodeRequest Samples.world (event_of "poll greet")) ∅
      = (∅, Settled outcome).
Proof.
  assert (@requestCommon Samples.world (event_of "poll greet") = Ok common_poll)
    as Hc by by_computation.
  assert (rc_requestType common_poll = read_state) as Hkind by by_computation.
  repeat (split; [assumption|]).
  exact (@poll_decoding_is_synchronous Samples.world _ _ ∅ Hc Hkind).
Defined.

(** A poll without paths, and a poll whose first path has one label. *)
Lemma poll_path_bounds_witness :
  (@requestCommon Samples.world (event_of "no paths") = Ok Samples.common_no_paths
   ∧ rc_requestType Samples.common_no_paths = read_state
   ∧ exec (@decodeRequest Samples.world (event_of "no paths")) (env_ok None) ∅
     = (∅, Err (TypeError Index_paths)))
  ∧ (@requestCommon Samples.world (event_of "short poll") = Ok Samples.common_short
     ∧ rc_requestType Samples.common_short = read_state
     ∧ exec (@decodeRequest Samples.world (event_of "short poll")) (env_ok None) ∅
       = (∅, Err (TypeError Destructure_details))).
Proof.
  split.
  - assert (@requestCommon Samples.world (event_of "no paths")
            = Ok Samples.common_no_paths) as Hc by by_computation.
    assert (rc_requestType Samples.common_no_paths = read_state)
      as Hkind by by_computation.
    repeat (split; [assumption|]).
    destruct (@poll_path_bounds Samples.world _ _ (env_ok None) ∅ Hc Hkind)
      as [Hnone _].
    apply Hnone. left. by_computation.
  - assert (@requestCommon Samples.world (event_of "short poll")
            = Ok Samples.common_short) as Hc by by_computation.
    assert (rc_requestType Samples.common_short = read_state)
      as Hkind by by_computation.
    repeat (split; [assumption|]).
    destruct (@poll_path_bounds Samples.world _ _ (env_ok None) ∅ Hc Hkind)
      as [_ Hshort].
    apply (Hshort [Samples.request_status] []); [by_computation|cbn; lia].
Defined.

(** The call of [greet], decoded on the empty store. *)
Lemma decoded_request_agrees_with_store_witness :
  exec (@decodeRequest Samples.world (event_of "call greet")) (env_ok None) ∅
  = (Samples.greet_store, Ok call_request)
  ∧ Samples.greet_store !! message call_request
    = Some {| details_canisterId := canisterId call_request;
              details_method := method call_request |}.
Proof.
  assert (exec (@decodeRequest Samples.world (event_of "call greet")) (env_ok None) ∅
          = (Samples.greet_store, Ok call_request)) as Hrun by by_computation.
  split; [assumption|].
  exact (@decoded_request_agrees_with_store Samples.world _ _ _ _ _ Hrun).
Defined.

(** A session of one poll and one call. *)
Lemma session_records_witness :
  let events := [event_of "poll greet"; event_of "call greet"] in
  @session Samples.world events !! toHexString id_greet = Some greet_details
  ∧ ∃ event,
      event ∈ events
      ∧ @shouldCapture Samples.world event = true
      ∧ @recordWritten Samples.world event = Some (toHexString id_greet, greet_details).
Proof.
  intros events.
  assert (@session Samples.world events !! toHexString id_greet = Some greet_details)
    as Hkey by by_computation.
  split; [assumption|].
  exact (@session_records Samples.world events _ _ Hkey).
Defined.

(** The call of [greet], answered with a certificate. *)
Lemma call_response_is_never_decoded_witness :
  requestType call_request = call
  ∧ env_ok (Some "done") (GetContent (event_of "call greet")) = Ok (Some "done")
  ∧ String.eqb "done" "" = false
  ∧ ∃ e, exec (@decodeResponse Samples.world (event_of "call greet") call_request)
              (env_ok (Some "done")) ∅ = (∅, Err e).
Proof.
  assert (requestType call_request = call) as H1 by by_computation.
  assert (env_ok (Some "done") (GetContent (event_of "call greet")) = Ok (Some "done"))
    as H2 by by_computation.
  assert (String.eqb "done" "" = false) as H3 by by_computation.
  repeat (split; [assumption|]).
  exact (@call_response_is_never_decoded Samples.world _ _ _ ∅ _ H1 H2 H3).
Defined.

Lemma sample_body (event : NetworkEvent) (text : string) (response : Value) :
  String.eqb text "" = false →
  Samples.decode_sample (TextEncoder_encode text) = Ok response →
  decoded_body (H := Samples.world) event (env_ok (Some text)) response.
Proof. intros Hnonempty Hcbor. by exists text, (TextEncoder_encode text). Qed.

(** Four bodies: the number zero, the number five, the empty object, and
    the answer to a submitted call. *)
Lemma response_validation_witness :
  let event := event_of "query greet" in
  (decoded_body (H := Samples.world) event (env_ok (Some "zero")) (VNum 0)
   ∧ exec (@decodeResponse Samples.world event query_request) (env_ok (Some "zero")) ∅
     = (∅, Err UnexpectedResponse))
  ∧ (decoded_body (H := Samples.world) event (env_ok (Some "five")) (VNum 5)
     ∧ exec (@decodeResponse Samples.world event query_request) (env_ok (Some "five")) ∅
       = (∅, Err (TypeError In_response)))
  ∧ (decoded_body (H := Samples.world) event (env_ok (Some "empty object")) (VObj [])
     ∧ exec (@decodeResponse Samples.world event query_request)
            (env_ok (Some "empty object")) ∅
       = (∅, Err UnexpectedResponse))
  ∧ (decoded_body (H := Samples.world) event (env_ok (Some "submitted"))
       (VObj [("requestId", VBytes id_greet)])
     ∧ exec (@decodeResponse Samples.world event query_request)
            (env_ok (Some "submitted")) ∅
       = (∅, Err TODO_CallResponses)).
Proof.
  intros event. split; [|split; [|split]].
  - assert (decoded_body (H := Samples.world) event (env_ok (Some "zero")) (VNum 0))
      as Hbody by (apply sample_body; by_computation).
    split; [done|].
    destruct (@response_validation Samples.world event query_request _ ∅ _ Hbody)
      as (Hfalsy & _).
    apply Hfalsy. by_computation.
  - assert (decoded_body (H := Samples.world) event (env_ok (Some "five")) (VNum 5))
      as Hbody by (apply sample_body; by_computation).
    split; [done|].
    destruct (@response_validation Samples.world event query_request _ ∅ _ Hbody)
      as (_ & Hprimitive & _).
    apply Hprimitive; by_computation.
  - assert (decoded_body (H := Samples.world) event (env_ok (Some "empty object"))
              (VObj []))
      as Hbody by (apply sample_body; by_computation).
    split; [done|].
    destruct (@response_validation Samples.world event query_request _ ∅ _ Hbody)
      as (_ & _ & Hkeyless & _).
    apply Hkeyless; by_computation.
  - assert (decoded_body (H := Samples.world) event (env_ok (Some "submitted"))
              (VObj [("requestId", VBytes id_greet)]))
      as Hbody by (apply sample_body; by_computation).
    split; [done|].
    destruct (@response_validation Samples.world event query_request _ ∅ _ Hbody)
      as (_ & _ & _ & Htodo).
    apply Htodo; by_computation.
Defined.

(** A query answered with a reply, and one answered with the status alone. *)
Lemma replied_query_witness :
  let event := event_of "query greet" in
  (decoded_body (H := Samples.world) event (env_ok (Some "query replied"))
     Samples.query_replied
   ∧ js_in In_response "status" Samples.query_replied = Ok true
   ∧ requestType query_request = query
   ∧ field Samples.query_replied "status" = VStr "replied"
   ∧ exec (@decodeResponse Samples.world event query_request)
          (env_ok (Some "query replied")) ∅
     = (∅, Ok (WithReply (VStr "replied") Samples.hello_reply)))
  ∧ (decoded_body (H := Samples.world) event (env_ok (Some "query replied bare"))
       (VObj [("status", VStr "replied")])
     ∧ exec (@decodeResponse Samples.world event query_request)
            (env_ok (Some "query replied bare")) ∅
       = (∅, Err (TypeError Get_reply_arg))).
Proof.
  intros event. split.
  - assert (decoded_body (H := Samples.world) event (env_ok (Some "query replied"))
              Samples.query_replied)
      as Hbody by (apply sample_body; by_computation).
    assert (js_in In_response "status" Samples.query_replied = Ok true)
      as Hstatus by by_computation.
    assert (requestType query_request = query) as Hkind by by_computation.
    assert (field Samples.query_replied "status" = VStr "replied")
      as Hreplied by by_computation.
    repeat (split; [assumption|]).
    destruct (@replied_query Samples.world event query_request _ ∅ _
                Hbody Hstatus Hkind Hreplied) as [_ Hreply].
    apply (Hreply (VBytes (TextEncoder_encode "DIDL hello"))). by_computation.
  - assert (decoded_body (H := Samples.world) event
              (env_ok (Some "query replied bare")) (VObj [("status", VStr "replied")]))
      as Hbody by (apply sample_body; by_computation).
    split; [done|].
    assert (js_in In_response "status" (VObj [("status", VStr "replied")]) = Ok true)
      as Hstatus by by_computation.
    assert (requestType query_request = query) as Hkind by by_computation.
    assert (field (VObj [("status", VStr "replied")]) "status" = VStr "replied")
      as Hreplied by by_computation.
    destruct (@replied_query Samples.world event query_request _ ∅ _
                Hbody Hstatus Hkind Hreplied) as [Hbare _].
    apply Hbare. left. by_computation.
Defined.

Lemma sample_certificate_response (text : string) (response : Value)
    (request : DecodedRequest) :
  String.eqb text "" = false →
  Samples.decode_sample (TextEncoder_encode text) = Ok response →
  js_in In_response "status" response = Ok false →
  js_in In_response "certificate" response = Ok true →
  requestType request = read_state →
  certificate_response (H := Samples.world) (event_of "poll greet") request
    (env_ok (Some text)) response.
Proof. intros ?????. by exists text, (TextEncoder_encode text). Qed.

(** The poll for [greet] paired with the certified capture [text], whose
    certificate is [tree], on the store that holds the call. *)
Lemma sample_certified_poll (text : string) (tree : Value) :
  String.eqb text "" = false →
  Samples.decode_sample (TextEncoder_encode text)
  = Ok (Samples.certificate_named ("tree " +:+ text)) →
  Samples.decode_sample (TextEncoder_encode ("tree " +:+ text)) = Ok tree →
  certified_poll (H := Samples.world) (event_of "poll greet") poll_request
    (env_ok (Some text)) Samples.greet_store greet_details tree Samples.greet_path.
Proof.
  intros Hnonempty Hcbor Htree.
  exists (Samples.certificate_named ("tree " +:+ text)),
    (VArr Samples.greet_path), Samples.request_status.
  split; [by apply sample_certificate_response|].
  repeat split; try by_computation. exact Htree.
Qed.

(** A certificate with the status [replied] and a reply, and one with the
    status alone. *)
Lemma replied_poll_witness :
  let event := event_of "poll greet" in
  let status := (Samples.greet_path ++ [VBytes (TextEncoder_encode "status")])%list in
  let reply := (Samples.greet_path ++ [VStr "reply"])%list in
  (certified_poll (H := Samples.world) event poll_request (env_ok (Some "replied"))
     Samples.greet_store greet_details Samples.tree_replied Samples.greet_path
   ∧ @Certificate_lookup Samples.world Samples.tree_replied status
     = Ok (Some (TextEncoder_encode "replied"))
   ∧ @TextDecoder_decode Samples.world (TextEncoder_encode "replied") = "replied"
   ∧ @Certificate_lookup Samples.world Samples.tree_replied reply
     = Ok (Some (TextEncoder_encode "DIDL hello"))
   ∧ exec (@decodeResponse Samples.world event poll_request)
          (env_ok (Some "replied")) Samples.greet_store
     = (Samples.greet_store, Ok (WithReply (VStr "replied") Samples.hello_reply)))
  ∧ (certified_poll (H := Samples.world) event poll_request
       (env_ok (Some "replied bare")) Samples.greet_store greet_details
       Samples.tree_replied_bare Samples.greet_path
     ∧ @Certificate_lookup Samples.world Samples.tree_replied_bare reply = Ok None
     ∧ exec (@decodeResponse Samples.world event poll_request)
            (env_ok (Some "replied bare")) Samples.greet_store
       = (Samples.greet_store, Err MissingReply)).
Proof.
  intros event status reply. split.
  - assert (certified_poll (H := Samples.world) event poll_request
              (env_ok (Some "replied")) Samples.greet_store greet_details
              Samples.tree_replied Samples.greet_path)
      as Hcertified by (apply sample_certified_poll; by_computation).
    assert (@Certificate_lookup Samples.world Samples.tree_replied status
            = Ok (Some (TextEncoder_encode "replied"))) as Hleaf by by_computation.
    assert (@TextDecoder_decode Samples.world (TextEncoder_encode "replied") = "replied")
      as Hreplied by by_computation.
    assert (@Certificate_lookup Samples.world Samples.tree_replied reply
            = Ok (Some (TextEncoder_encode "DIDL hello"))) as Hreply by by_computation.
    repeat (split; [assumption|]).
    destruct (@replied_poll Samples.world _ _ _ _ _ _ _ _ Hcertified Hleaf Hreplied)
      as [_ Hwith].
    exact (Hwith _ Hreply).
  - assert (certified_poll (H := Samples.world) event poll_request
              (env_ok (Some "replied bare")) Samples.greet_store greet_details
              Samples.tree_replied_bare Samples.greet_path)
      as Hcertified by (apply sample_certified_poll; by_computation).
    assert (@Certificate_lookup Samples.world Samples.tree_replied_bare status
            = Ok (Some (TextEncoder_encode "replied"))) as Hleaf by by_computation.
    assert (@TextDecoder_decode Samples.world (TextEncoder_encode "replied") = "replied")
      as Hreplied by by_computation.
    assert (@Certificate_lookup Samples.world Samples.tree_replied_bare reply = Ok None)
      as Hreply by by_computation.
    repeat (split; [assumption|]).
    destruct (@replied_poll Samples.world _ _ _ _ _ _ _ _ Hcertified Hleaf Hreplied)
      as [Hwithout _].
    exact (Hwithout Hreply).
Defined.

(** A certificate with the status [processing]. *)
Lemma pending_poll_witness :
  let event := event_of "poll greet" in
  let status := (Samples.greet_path ++ [VBytes (TextEncoder_encode "status")])%list in
  certified_poll (H := Samples.world) event poll_request (env_ok (Some "processing"))
    Samples.greet_store greet_details Samples.tree_processing Samples.greet_path
  ∧ @Certificate_lookup Samples.world Samples.tree_processing status
    = Ok (Some (TextEncoder_encode "processing"))
  ∧ exec (@decodeResponse Samples.world event poll_request)
         (env_ok (Some "processing")) Samples.greet_store
    = (Samples.greet_store, Ok (StatusOnly (VStr "processing"))).
Proof.
  intros event status.
  assert (certified_poll (H := Samples.world) event poll_request
            (env_ok (Some "processing")) Samples.greet_store greet_details
            Samples.tree_processing Samples.greet_path)
    as Hcertified by (apply sample_certified_poll; by_computation).
  assert (@Certificate_lookup Samples.world Samples.tree_processing status
          = Ok (Some (TextEncoder_encode "processing"))) as Hleaf by by_computation.
  repeat (split; [assumption|]).
  apply (@pending_poll Samples.world _ _ _ _ _ _ _ _ Hcertified Hleaf).
  apply list_elem_of_further, list_elem_of_here.
Defined.

(** A certificate with the status [expired], which the enumeration does not
    have. *)
Lemma unrecognised_status_gives_nothing_witness :
  let event := event_of "poll greet" in
  let status := (Samples.greet_path ++ [VBytes (TextEncoder_encode "status")])%list in
  certified_poll (H := Samples.world) event poll_request (env_ok (Some "odd"))
    Samples.greet_store greet_details Samples.tree_odd Samples.greet_path
  ∧ @Certificate_lookup Samples.world Samples.tree_odd status
    = Ok (Some (TextEncoder_encode "expired"))
  ∧ exec (@decodeResponse Samples.world event poll_request)
         (env_ok (Some "odd")) Samples.greet_store
    = (Samples.greet_store, Ok NoResponse).
Proof.
  intros event status.
  assert (certified_poll (H := Samples.world) event poll_request
            (env_ok (Some "odd")) Samples.greet_store greet_details
            Samples.tree_odd Samples.greet_path)
    as Hcertified by (apply sample_certified_poll; by_computation).
  assert (@Certificate_lookup Samples.world Samples.tree_odd status
          = Ok (Some (TextEncoder_encode "expired"))) as Hleaf by by_computation.
  repeat (split; [assumption|]).
  apply (@unrecognised_status_gives_nothing Samples.world _ _ _ _ _ _ _ _
           Hcertified Hleaf).
  change (@TextDecoder_decode Samples.world (TextEncoder_encode "expired"))
    with "expired".
  intros Hin. repeat (apply elem_of_cons in Hin as [[=]|Hin]).
  by apply elem_of_nil in Hin.
Defined.

(** The example of the design document: [rejected], the code 3 and the
    message [canister trapped]. *)
Lemma rejected_poll_with_details_witness :
  let event := event_of "poll greet" in
  let status := (Samples.greet_path ++ [VBytes (TextEncoder_encode "status")])%list in
  certified_poll (H := Samples.world) event poll_request (env_ok (Some "rejected"))
    Samples.greet_store greet_details tree_rejected Samples.greet_path
  ∧ @Certificate_lookup Samples.world tree_rejected status
    = Ok (Some (TextEncoder_encode "rejected"))
  ∧ @Certificate_lookup Samples.world tree_rejected
      (Samples.greet_path ++ [VStr "reject_code"])%list = Ok (Some [x03])
  ∧ @Certificate_lookup Samples.world tree_rejected
      (Samples.greet_path ++ [VStr "reject_message"])%list
    = Ok (Some (TextEncoder_encode "canister trapped"))
  ∧ exec (@decodeResponse Samples.world event poll_request)
         (env_ok (Some "rejected")) Samples.greet_store
    = (Samples.greet_store,
       Ok (Rejection (VStr "rejected") (VStr "canister trapped") (VNum 3))).
Proof.
  intros event status.
  assert (certified_poll (H := Samples.world) event poll_request
            (env_ok (Some "rejected")) Samples.greet_store greet_details
            tree_rejected Samples.greet_path)
    as Hcertified by (apply sample_certified_poll; by_computation).
  assert (@Certificate_lookup Samples.world tree_rejected status
          = Ok (Some (TextEncoder_encode "rejected"))) as Hleaf by by_computation.
  assert (@Certificate_lookup Samples.world tree_rejected
            (Samples.greet_path ++ [VStr "reject_code"])%list = Ok (Some [x03]))
    as Hcode by by_computation.
  assert (@Certificate_lookup Samples.world tree_rejected
            (Samples.greet_path ++ [VStr "reject_message"])%list
          = Ok (Some (TextEncoder_encode "canister trapped")))
    as Hmessage by by_computation.
  repeat (split; [assumption|]).
  apply (@rejected_poll_with_details Samples.world _ _ _ _ _ _ _ _
           Hcertified Hleaf x03 [] (TextEncoder_encode "canister trapped"));
    [by_computation|exact Hcode|exact Hmessage].
Defined.

(** A poll whose first path starts with [time]. *)
Lemma unexpected_first_path_witness :
  let event := event_of "poll greet" in
  let response := Samples.certificate_named "tree done" in
  let label0 := VBytes (TextEncoder_encode "time") in
  certificate_response (H := Samples.world) event Samples.time_request
    (env_ok (Some "done")) response
  ∧ js_index Index_paths (paths_of Samples.time_request) 0 = Ok (VArr [label0])
  ∧ js_index Index_paths (VArr [label0]) 0 = Ok label0
  ∧ @TextDecoder_decode_value Samples.world label0 = Ok "time"
  ∧ "time" ≠ "request_status"
  ∧ exec (@decodeResponse Samples.world event Samples.time_request)
         (env_ok (Some "done")) Samples.greet_store
    = (Samples.greet_store, Err (UnexpectedFirstPath "time")).
Proof.
  intros event response label0.
  assert (certificate_response (H := Samples.world) event Samples.time_request
            (env_ok (Some "done")) response)
    as H1 by (apply sample_certificate_response; by_computation).
  assert (js_index Index_paths (paths_of Samples.time_request) 0 = Ok (VArr [label0]))
    as H2 by by_computation.
  assert (js_index Index_paths (VArr [label0]) 0 = Ok label0) as H3 by by_computation.
  assert (@TextDecoder_decode_value Samples.world label0 = Ok "time")
    as H4 by by_computation.
  assert ("time" ≠ "request_status") as H5 by discriminate.
  repeat (split; [assumption|]).
  exact (@unexpected_first_path Samples.world _ _ _ _ _ _ _ _ H1 H2 H3 H4 H5).
Defined.

(** The poll for [greet] on a store that never saw the call. *)
Lemma response_without_details_witness :
  let event := event_of "poll greet" in
  let response := Samples.certificate_named "tree done" in
  certificate_response (H := Samples.world) event poll_request
    (env_ok (Some "done")) response
  ∧ js_index Index_paths (paths_of poll_request) 0 = Ok (VArr Samples.greet_path)
  ∧ js_index Index_paths (VArr Samples.greet_path) 0 = Ok Samples.request_status
  ∧ @TextDecoder_decode_value Samples.world Samples.request_status = Ok "request_status"
  ∧ (∅ : Store) !! message poll_request = None
  ∧ exec (@decodeResponse Samples.world event poll_request) (env_ok (Some "done")) ∅
    = (∅, Err (NoMessageDetails (message poll_request))).
Proof.
  intros event response.
  assert (certificate_response (H := Samples.world) event poll_request
            (env_ok (Some "done")) response)
    as H1 by (apply sample_certificate_response; by_computation).
  assert (js_index Index_paths (paths_of poll_request) 0 = Ok (VArr Samples.greet_path))
    as H2 by by_computation.
  assert (js_index Index_paths (VArr Samples.greet_path) 0 = Ok Samples.request_status)
    as H3 by by_computation.
  assert (@TextDecoder_decode_value Samples.world Samples.request_status
          = Ok "request_status") as H4 by by_computation.
  assert ((∅ : Store) !! message poll_request = None) as H5 by by_computation.
  repeat (split; [assumption|]).
  exact (@response_without_details Samples.world _ _ _ _ _ _ _ H1 H2 H3 H4 H5).
Defined.

(** A URL of a local replica. *)
Lemma select_regex_extends_capture_regex_witness :
  let url := "http://localhost:8000/api/v2/canister/ryjl3-tyaaa-aaaaa-aaaba-cai/query" in
  Regex.search boundaryNodeRegex url = true
  ∧ Select.isBoundaryNodeURL url = true.
Proof.
  intros url.
  assert (Regex.search boundaryNodeRegex url = true) as Hcapture by by_computation.
  split; [assumption|].
  exact (select_regex_extends_capture_regex url Hcapture).
Defined.

(** A [GET] of a boundary node URL, and a [POST] to the version 3. *)
Lemma capture_filter_witness :
  let get := Samples.event_with "https://ic0.app/api/v2/canister/aaaaa-aa/query"
                                "GET" "query greet" in
  let v3 := Samples.event_with "https://ic0.app/api/v3/canister/aaaaa-aa/call"
                               "POST" "call greet" in
  (∀ url, ascii_text url = true →
          @boundaryNodeRegex_match Samples.world url
          = Regex.search boundaryNodeRegex url)
  ∧ ascii_text (request_url get) = true
  ∧ ascii_text (request_url v3) = true
  ∧ run_sync (@captureInternetComputerMessageFromNetworkEvent Samples.world get) ∅
    = (∅, Settled (Ok None))
  ∧ run_sync (@captureInternetComputerMessageFromNetworkEvent Samples.world v3) ∅
    = (∅, Settled (Ok None)).
Proof.
  intros get v3.
  assert (∀ url, ascii_text url = true →
                 @boundaryNodeRegex_match Samples.world url
                 = Regex.search boundaryNodeRegex url) as Hregex by reflexivity.
  assert (ascii_text (request_url get) = true) as Hget by by_computation.
  assert (ascii_text (request_url v3) = true) as Hv3 by by_computation.
  repeat (split; [assumption|]). split.
  - destruct (@capture_filter Samples.world get ∅ Hregex Hget) as [_ Hskip].
    apply Hskip. by_computation.
  - destruct (@capture_filter Samples.world v3 ∅ Hregex Hv3) as [_ Hskip].
    apply Hskip. by_computation.
Defined.

(** A call to [ic0.app] over https. *)
Lemma capture_regex_language_witness :
  let url := "https://ic0.app/api/v2/canister/ryjl3-tyaaa-aaaaa-aaaba-cai/call" in
  ascii_text url = true
  ∧ Regex.search boundaryNodeRegex url = true
  ∧ boundary_shape capture_host ["2"] url.
Proof.
  intros url.
  assert (ascii_text url = true) as Hascii by by_computation.
  assert (Regex.search boundaryNodeRegex url = true) as Hfound by by_computation.
  repeat (split; [assumption|]).
  exact (proj1 (capture_regex_language url Hascii) Hfound).
Defined.

(** A poll of the version 3 at [icp0.io], behind a subdomain. *)
Lemma select_regex_language_witness :
  let url := "https://boundary.icp0.io/api/v3/canister/ryjl3-tyaaa-aaaaa-aaaba-cai/read_state" in
  ascii_text url = true
  ∧ Select.isBoundaryNodeURL url = true
  ∧ boundary_shape Select.select_host ["2"; "3"] url.
Proof.
  intros url.
  assert (ascii_text url = true) as Hascii by by_computation.
  assert (Select.isBoundaryNodeURL url = true) as Hfound by by_computation.
  repeat (split; [assumption|]).
  exact (proj1 (select_regex_language url Hascii) Hfound).
Defined.
